(** * Record-dump parsing and classification of the OFML analysis scripts

    A shallow embedding of the parsing and classification code of
    [analyze_framery_pricing.py], [analyze_framery.py],
    [compare_framery_fast.py] and [comprehensive_pricing_investigation.py],
    and the properties of it that the specification states.

    Conventions of the embedding:
    - a Python [str] is a [string]; a character is a code point below 256;
    - a Python [dict] with string keys is a [gmap string _] (dict equality
      and [get] do not depend on insertion order), a [set] of strings is a
      [gset string], a Python list is a [list];
    - a loop over [output.split('\n')] is a left fold of the loop body over
      the list of lines, the loop variables being the state;
    - list indexing, the one operation of the text parser that can raise,
      lives in the [result] monad. *)

From stdpp Require Import gmap strings list sorting pretty.
From Stdlib Require Import Ascii ZArith Lia.

(** ** Python string primitives *)

Module Py.

Definition NL : ascii := "010"%char.
Definition QUOTE : ascii := "'"%char.
Definition COLON : ascii := ":"%char.

(** [str.isspace] on one character, for code points below 256:
    TAB, LF, VT, FF, CR, FS, GS, RS, US, SPACE, NEL and NBSP. *)
Definition isspace (c : ascii) : bool :=
  match c with
  | "009" | "010" | "011" | "012" | "013"
  | "028" | "029" | "030" | "031" | " " | "133" | "160" => true
  | _ => false
  end%char.

Definition is_quote (c : ascii) : bool := Ascii.eqb c QUOTE.

(** [s.startswith(p)] *)
Fixpoint startswith (s p : string) : bool :=
  match p with
  | EmptyString => true
  | String a p' =>
      match s with
      | EmptyString => false
      | String b s' => Ascii.eqb a b && startswith s' p'
      end
  end.

(** [sub in s] *)
Fixpoint contains (sub s : string) : bool :=
  startswith s sub ||
  match s with
  | EmptyString => false
  | String _ s' => contains sub s'
  end.

(** [c in s] for a one-character needle, used in the statements. *)
Fixpoint has_char (c : ascii) (s : string) : bool :=
  match s with
  | EmptyString => false
  | String a s' => Ascii.eqb a c || has_char c s'
  end.

(** [s.split(sep)] for a one-character separator: never empty. *)
Fixpoint split (sep : ascii) (s : string) : list string :=
  match s with
  | EmptyString => [EmptyString]
  | String c s' =>
      if Ascii.eqb c sep then EmptyString :: split sep s'
      else match split sep s' with
           | [] => [String c EmptyString]
           | l :: ls => String c l :: ls
           end
  end.

(** [s.split(sep, 1)]: cut at the first separator, if there is one. *)
Fixpoint cut (sep : ascii) (s : string) : option (string * string) :=
  match s with
  | EmptyString => None
  | String c s' =>
      if Ascii.eqb c sep then Some (EmptyString, s')
      else match cut sep s' with
           | Some (a, b) => Some (String c a, b)
           | None => None
           end
  end.

Definition split_once (sep : ascii) (s : string) : list string :=
  match cut sep s with
  | Some (a, b) => [a; b]
  | None => [s]
  end.

(** [sep.join(ls)] for a one-character separator. *)
Fixpoint join (sep : ascii) (ls : list string) : string :=
  match ls with
  | [] => EmptyString
  | [l] => l
  | l :: ls' => l +:+ String sep (join sep ls')
  end.

(** [s.lstrip(chars)], [s.rstrip(chars)], [s.strip(chars)], the set of
    characters given as a predicate. *)
Fixpoint lstrip_chars (P : ascii → bool) (s : string) : string :=
  match s with
  | EmptyString => EmptyString
  | String c s' => if P c then lstrip_chars P s' else s
  end.

Fixpoint rstrip_chars (P : ascii → bool) (s : string) : string :=
  match s with
  | EmptyString => EmptyString
  | String c s' =>
      match rstrip_chars P s' with
      | EmptyString => if P c then EmptyString else String c EmptyString
      | r => String c r
      end
  end.

Definition strip_chars (P : ascii → bool) (s : string) : string :=
  lstrip_chars P (rstrip_chars P s).

(** [s.strip()], and [s.strip] with the single quote as its argument *)
Definition strip : string → string := strip_chars isspace.
Definition strip_quotes : string → string := strip_chars is_quote.

(** The longest prefix of [s] without a quote, and what follows it. *)
Fixpoint span_unquoted (s : string) : string * string :=
  match s with
  | EmptyString => (EmptyString, EmptyString)
  | String c s' =>
      if is_quote c then (EmptyString, s)
      else let '(a, b) := span_unquoted s' in (String c a, b)
  end.

(** [s[n:]] *)
Fixpoint drop (n : nat) (s : string) : string :=
  match n, s with
  | O, _ => s
  | S n', String _ s' => drop n' s'
  | S _, EmptyString => EmptyString
  end.

(** [re.search] for the patterns of the scripts: a literal prefix (a
    field name, a colon and a space), a quote, a group of characters
    other than the quote (starred, or with [plus] one or more), and a
    quote.  The result is [group(1)] of the match, [None] when there is
    no match.  The search tries the start positions from left to right.
    At one position the prefix and the opening quote must be read; the
    character class then takes the longest run without a quote, and
    since giving back characters of that run never exposes a quote, the
    attempt succeeds exactly when the run is followed by a quote (and is
    not empty, for [plus]). *)
Definition match_here (plus : bool) (prefix s : string) : option string :=
  if startswith s (prefix +:+ String QUOTE EmptyString) then
    let '(g, rest) :=
      span_unquoted (drop (String.length prefix + 1) s) in
    match rest with
    | String _ _ =>
        if plus && bool_decide (g = EmptyString) then None else Some g
    | EmptyString => None
    end
  else None.

Fixpoint re_search (plus : bool) (prefix s : string) : option string :=
  match match_here plus prefix s with
  | Some g => Some g
  | None =>
      match s with
      | EmptyString => None
      | String _ s' => re_search plus prefix s'
      end
  end.

(** [s[:n]] *)
Fixpoint take (n : nat) (s : string) : string :=
  match n, s with
  | S n', String c s' => String c (take n' s')
  | _, _ => EmptyString
  end.

End Py.

(** ** Exceptions

    The text parser and the sharing check index lists ([parts[0]],
    [parts[1]], [list(...)[0]]); an index out of range raises
    [IndexError].  Code that indexes runs in [result]. *)

Inductive exn : Type := IndexError.

Inductive result (A : Type) : Type :=
| Ok (a : A)
| Raise (e : exn).

Arguments Ok {A} a.
Arguments Raise {A} e.

#[global] Instance result_ret : MRet result := λ A a, Ok a.
#[global] Instance result_bind : MBind result := λ A B f m,
  match m with
  | Ok a => f a
  | Raise e => Raise e
  end.

(** [l[i]] *)
Definition index {A} (l : list A) (i : nat) : result A :=
  match l !! i with
  | Some x => Ok x
  | None => Raise IndexError
  end.

(** A [for] loop whose body may raise. *)
Fixpoint for_each {S A} (body : S → A → result S) (st : S) (l : list A)
  : result S :=
  match l with
  | [] => Ok st
  | x :: l' => st' ← body st x; for_each body st' l'
  end.

(** ** Records

    A record of a dump is a dict from field names to text. *)

Abbreviation record := (gmap string string).

(** [bool(d)] of a dict: true when it has a key. *)
Definition truthy {A} `{EqDecision A} (d : gmap string A) : bool :=
  negb (bool_decide (d = ∅)).

(** [l.append(x)] under [if d:], the step every assembler loop shares. *)
Definition append_if_truthy (l : list record) (d : record) : list record :=
  if truthy d then l ++ [d] else l.

(** ** analyze_framery_pricing.py *)

Module Pricing.

Definition MARKER : string := "=== Records from ocd_price".

(** The loop variables of [parse_price_records]. *)
Record state : Type := State {
  prices : list record;
  current_record : record;
  in_records : bool
}.

Definition initial : state := State [] ∅ false.

(** The body of the loop of [parse_price_records], for one line. *)
Definition parse_line (st : state) (line : string) : result state :=
  if Py.contains MARKER line then
    Ok (State (prices st) (current_record st) true)
  else if negb (in_records st) then
    Ok st
  else if Py.startswith line "Record " then
    Ok (State (append_if_truthy (prices st) (current_record st)) ∅
              (in_records st))
  else if Py.contains ":" line
          && negb (Py.startswith (Py.strip line) "Table:") then
    let parts := Py.split_once Py.COLON line in
    if (length parts =? 2)%nat then
      p0 ← index parts 0;
      p1 ← index parts 1;
      let key := Py.strip p0 in
      let value := Py.strip_quotes (Py.strip p1) in
      Ok (State (prices st) (<[key := value]> (current_record st))
                (in_records st))
    else Ok st
  else Ok st.

Definition parse_price_records (output : string) : result (list record) :=
  st ← for_each parse_line initial (Py.split Py.NL output);
  Ok (append_if_truthy (prices st) (current_record st)).

(** The dict that [analyze_manufacturer] returns. *)
Record report : Type := Report {
  name : string;
  total : nat;
  base : nat;
  surcharges : nat;
  corrupt : nat;
  base_prices : list record
}.

(** [p.get('price_level')] compared with the literals. *)
Definition level (p : record) : option string := p !! "price_level".

(** [analyze_manufacturer], from the dump that [run_ebase_dump] returned
    for the table; the printing is left out. *)
Definition analyze_manufacturer (name output : string) : result report :=
  prices ← parse_price_records output;
  let base_prices := filter (λ p, level p = Some "B") prices in
  let surcharges := filter (λ p, level p = Some "X") prices in
  let corrupt := filter (λ p, level p ∉ [Some "B"; Some "X"]) prices in
  Ok (Report name (length prices) (length base_prices)
             (length surcharges) (length corrupt) base_prices).

(** What the key findings of [main] say about one result: the warning,
    or the count and one (article, price, currency) line per base
    price, [get] filling an absent field with N/A. *)
Inductive finding : Type :=
| NoBasePrices (name : string)
| HasBasePrices (name : string) (n : nat)
                (lines : list (string * string * string)).

Definition key_finding (r : report) : finding :=
  if (base r =? 0)%nat then NoBasePrices (name r)
  else HasBasePrices (name r) (base r)
         (map (λ bp : record, (default "N/A" (bp !! "article_nr"),
                               default "N/A" (bp !! "price"),
                               default "N/A" (bp !! "currency")))
              (base_prices r)).

Definition key_findings (results : list report) : list finding :=
  map key_finding results.

(** The value that [analyze_manufacturer] shows for a field of a corrupt
    record: a value of more than 100 characters is cut to its first 100
    and three dots are put behind it. *)
Definition shown_value (value : string) : string :=
  if (100 <? String.length value)%nat
  then Py.take 100 value +:+ "..." else value.

End Pricing.

(** ** analyze_framery.py *)

Module Framery.

(** [sorted(classes)] of a set of strings: ascending by code points. *)
Definition sorted (classes : gset string) : list string :=
  merge_sort String.le (elements classes).

(** [extract_property_classes]: the loop adds to the set [classes]. *)
Definition property_class_line (classes : gset string) (line : string)
  : gset string :=
  if Py.contains "prop_class:" line then
    match Py.re_search true "prop_class: " line with
    | Some g => classes ∪ {[g]}
    | None => classes
    end
  else classes.

Definition extract_property_classes (output : string) : list string :=
  sorted (foldl property_class_line ∅ (Py.split Py.NL output)).

(** The loop variables of [extract_articles]. *)
Record state : Type := State {
  articles : list record;
  current_article : record
}.

Definition article_line (st : state) (line : string) : state :=
  if Py.startswith line "Record" then
    State (append_if_truthy (articles st) (current_article st)) ∅
  else if Py.contains "article_nr:" line then
    match Py.re_search true "article_nr: " line with
    | Some g =>
        State (articles st) (<["article_nr" := g]> (current_article st))
    | None => st
    end
  else if Py.contains "series:" line then
    match Py.re_search true "series: " line with
    | Some g =>
        State (articles st) (<["series" := g]> (current_article st))
    | None => st
    end
  else st.

Definition extract_articles (output : string) : list record :=
  let st := foldl article_line (State [] ∅) (Py.split Py.NL output) in
  append_if_truthy (articles st) (current_article st).

(** One value of the dict [all_series_data]. *)
Record series_data : Type := SeriesData {
  path : string;
  property_classes : list string;
  series_articles : list record;
  mappings : list record
}.

Inductive verdict : Type := Shared | SeriesSpecific.

(** [set(data['property_classes'])] *)
Definition class_set (data : series_data) : gset string :=
  list_to_set (property_classes data).

(** The summary of [main]: [all_series_data] is a dict from series names
    to [series_data], here the list of its items in insertion order.
    With no series nothing is decided ([None]). *)
Definition sharing_verdict (all_series_data : list (string * series_data))
  : result (option verdict) :=
  if (0 <? length all_series_data)%nat then
    let values := map snd all_series_data in
    first ← index values 0;
    let first_series_classes := class_set first in
    let all_same :=
      forallb (λ data, bool_decide (class_set data = first_series_classes))
              values in
    Ok (Some (if all_same then Shared else SeriesSpecific))
  else Ok None.

(** The loop variables of [extract_propertyclass_mappings] (the list is
    [mappings] in the script). *)
Record mapping_state : Type := MappingState {
  mapping_list : list record;
  current_mapping : record
}.

Definition mapping_line (st : mapping_state) (line : string)
  : mapping_state :=
  if Py.startswith line "Record" then
    MappingState (append_if_truthy (mapping_list st) (current_mapping st)) ∅
  else if Py.contains "article_nr:" line then
    match Py.re_search true "article_nr: " line with
    | Some g =>
        MappingState (mapping_list st)
                     (<["article_nr" := g]> (current_mapping st))
    | None => st
    end
  else if Py.contains "prop_class:" line then
    match Py.re_search true "prop_class: " line with
    | Some g =>
        MappingState (mapping_list st)
                     (<["prop_class" := g]> (current_mapping st))
    | None => st
    end
  else st.

Definition extract_propertyclass_mappings (output : string) : list record :=
  let st := foldl mapping_line (MappingState [] ∅) (Py.split Py.NL output) in
  append_if_truthy (mapping_list st) (current_mapping st).

(** The value that [main] stores in [all_series_data] for one series,
    from the three dumps that [run_ebase_command] returned for it. *)
Definition series_entry (path prop_output article_output
                         propclass_output : string) : series_data :=
  SeriesData path (extract_property_classes prop_output)
             (extract_articles article_output)
             (extract_propertyclass_mappings propclass_output).

(** [all_prop_classes] of [main]: the set is updated with the classes of
    every series. *)
Definition all_prop_classes (all_series_data : list (string * series_data))
  : gset string :=
  foldl (λ acc data, acc ∪ list_to_set (property_classes data)) ∅
        (map snd all_series_data).

End Framery.

(** ** compare_framery_fast.py *)

Module Compare.

(** The loop variables of [extract_price_data]. *)
Record state : Type := State {
  prices : list record;
  current_price : record
}.

(** The inner loop over the field names, for one field. *)
Definition price_field (line : string) (current_price : record)
  (field : string) : record :=
  if Py.contains (field +:+ ":") line then
    match Py.re_search false (field +:+ ": ") line with
    | Some g => <[field := g]> current_price
    | None => current_price
    end
  else current_price.

Definition FIELDS : list string := ["article_nr"; "var_cond"; "price_level"].

Definition price_line (st : state) (line : string) : state :=
  if Py.startswith line "Record" then
    State (append_if_truthy (prices st) (current_price st)) ∅
  else
    State (prices st) (foldl (price_field line) (current_price st) FIELDS).

Definition extract_price_data (output : string) : list record :=
  let st := foldl price_line (State [] ∅) (Py.split Py.NL output) in
  append_if_truthy (prices st) (current_price st).

(** [s.lower()] for code points below 256. *)
Definition lower_char (c : ascii) : ascii :=
  let n := nat_of_ascii c in
  if ((65 <=? n) && (n <=? 90) || (192 <=? n) && (n <=? 214)
      || (216 <=? n) && (n <=? 222))%nat
  then ascii_of_nat (n + 32) else c.

Fixpoint lower (s : string) : string :=
  match s with
  | EmptyString => EmptyString
  | String c s' => String (lower_char c) (lower s')
  end.

(** The two printed checks: does some property class contain the series
    identifier, in lower case or as it is. *)
Definition contains_lower (series_id : string) (prop_classes : list string)
  : bool :=
  existsb (λ pc, Py.contains series_id (lower pc)) prop_classes.

Definition contains_exact (series_id : string) (prop_classes : list string)
  : bool :=
  existsb (λ pc, Py.contains series_id pc) prop_classes.

(** The loop variables of [extract_propertyvalue_data]. *)
Record pv_state : Type := PvState {
  propvalues : list record;
  current_pv : record
}.

Definition PV_FIELDS : list string := ["prop_class"; "property"; "value_from"].

(** The inner loop over the field names has the body of [price_field]. *)
Definition propvalue_line (st : pv_state) (line : string) : pv_state :=
  if Py.startswith line "Record" then
    PvState (append_if_truthy (propvalues st) (current_pv st)) ∅
  else
    PvState (propvalues st) (foldl (price_field line) (current_pv st) PV_FIELDS).

Definition extract_propertyvalue_data (output : string) : list record :=
  let st := foldl propvalue_line (PvState [] ∅) (Py.split Py.NL output) in
  append_if_truthy (propvalues st) (current_pv st).

End Compare.

(** ** comprehensive_pricing_investigation.py *)

Module Investigation.

(** A value of a decoded flat JSON object: [json.loads] gives [str],
    [int], [bool] or [None] (a number is an integer here). *)
Inductive pyval : Type :=
| PStr (s : string)
| PInt (n : Z)
| PBool (b : bool)
| PNone.

#[global] Instance pyval_eq_dec : EqDecision pyval.
Proof. solve_decision. Defined.

(** [a == b]: [bool] is a subclass of [int], a string equals only a
    string. *)
Definition py_eq (a b : pyval) : bool :=
  match a, b with
  | PStr s, PStr t => bool_decide (s = t)
  | PInt n, PInt m => Z.eqb n m
  | PBool x, PBool y => Bool.eqb x y
  | PInt n, PBool x | PBool x, PInt n => Z.eqb n (Z.b2z x)
  | PNone, PNone => true
  | _, _ => false
  end.

Abbreviation jrecord := (gmap string pyval).

(** The local counters and the two sample lists of [results] that the
    price loop of [analyze_manufacturer] fills. *)
Record scan : Type := Scan {
  base_count : nat;
  surcharge_count : nat;
  base_prices : list jrecord;
  surcharges : list jrecord
}.

(** The dict appended to a sample list. *)
Definition sample (article_nr var_cond price : pyval) : jrecord :=
  <["price" := price]> (<["var_cond" := var_cond]>
    (<["article_nr" := article_nr]> ∅)).

(** The body of the loop over [price_data] (the pattern counter, which
    is only printed, is left out). *)
Definition price_record (st : scan) (record : jrecord) : scan :=
  let level := default (PStr "") (record !! "level") in
  let var_cond := default (PStr "") (record !! "var_cond") in
  let article_nr := default (PStr "") (record !! "article_nr") in
  let price := default (PInt 0) (record !! "price") in
  if py_eq level (PStr "B") then
    let base_count := S (base_count st) in
    Scan base_count (surcharge_count st)
         (if (base_count <=? 10)%nat
          then base_prices st ++ [sample article_nr var_cond price]
          else base_prices st)
         (surcharges st)
  else if py_eq level (PStr "X") then
    let surcharge_count := S (surcharge_count st) in
    Scan (base_count st) surcharge_count (base_prices st)
         (if (surcharge_count <=? 10)%nat
          then surcharges st ++ [sample article_nr var_cond price]
          else surcharges st)
  else st.

(** The price part of [analyze_manufacturer]: [price_data] is what
    [run_ofml_command] returned, [None] or a decoded array of objects;
    [if price_data:] skips [None] and the empty array. *)
Definition scan_prices (price_data : option (list jrecord)) : scan :=
  match price_data with
  | Some (r :: rs) => foldl price_record (Scan 0 0 [] []) (r :: rs)
  | _ => Scan 0 0 [] []
  end.

(** The sample that the price loop builds for a record, and its test of
    the level against a literal. *)
Definition sample_of (record : jrecord) : jrecord :=
  sample (default (PStr "") (record !! "article_nr"))
         (default (PStr "") (record !! "var_cond"))
         (default (PInt 0) (record !! "price")).

Definition level_is (literal : string) (record : jrecord) : bool :=
  py_eq (default (PStr "") (record !! "level")) (PStr literal).

(** [r.get(key)]: [None] for an absent key. *)
Definition get (record : jrecord) (key : string) : pyval :=
  default PNone (record !! key).

(** The three numbers that [analyze_manufacturer] prints for the table of
    property class mappings: the total, the article-specific ones and the
    wildcard ones; nothing is printed ([None]) when the table is absent or
    empty. *)
Definition propclass_counts (propclass_data : option (list jrecord))
  : option (nat * nat * nat) :=
  match propclass_data with
  | Some (r :: rs) =>
      let article_specific :=
        length (filter (λ r, py_eq (get r "article_nr") (PStr "*") = false)
                       (r :: rs)) in
      let wildcard :=
        length (filter (λ r, py_eq (get r "article_nr") (PStr "*") = true)
                       (r :: rs)) in
      Some (length (r :: rs), article_specific, wildcard)
  | _ => None
  end.

End Investigation.

(** ** The comparison table of comprehensive_pricing_investigation.py *)

Module Table.
Import Investigation.

(** The exceptions of the table code: a dict indexed by an absent key,
    and values that are not strings where strings are sorted and
    joined. *)
Inductive failure : Type := KeyError | TypeError.

(** [sep.join(items)] *)
Fixpoint join_with (sep : string) (items : list string) : string :=
  match items with
  | [] => EmptyString
  | [x] => x
  | x :: rest => x +:+ sep +:+ join_with sep rest
  end.

(** The values [bp['var_cond']] of the samples, wanted as strings.
    Building the set indexes every sample first, so an absent key raises
    [KeyError] before anything else.  A value that is not a string raises
    [TypeError] afterwards: [sorted] raises it when it compares the value
    with a string or with null, and when [sorted] gets through (numbers
    only, or a single value) [join] raises it on the first item. *)
Fixpoint collect_var_conds (samples : list jrecord)
  : failure + list string :=
  match samples with
  | [] => inr []
  | bp :: rest =>
      match bp !! "var_cond" with
      | None => inl KeyError
      | Some (PStr s) =>
          match collect_var_conds rest with
          | inr l => inr (s :: l)
          | inl e => inl e
          end
      | Some _ =>
          match collect_var_conds rest with
          | inl KeyError => inl KeyError
          | _ => inl TypeError
          end
      end
  end.

(** The pattern column of [main] for a list of samples: UNKNOWN for an
    empty list, else the first [limit] of the sorted distinct variant
    conditions, joined by a comma and a blank, with three dots when
    there are more. *)
Definition pattern (limit : nat) (samples : list jrecord)
  : failure + string :=
  match samples with
  | [] => inr "UNKNOWN"
  | _ =>
      match collect_var_conds samples with
      | inl e => inl e
      | inr l =>
          let var_conds : gset string := list_to_set l in
          inr (join_with ", " (take limit (Framery.sorted var_conds))
               +:+ (if (limit <? size var_conds)%nat then "..." else ""))
      end
  end.

Definition base_pattern (r : scan) : failure + string :=
  pattern 3 (base_prices r).

Definition surch_pattern (r : scan) : failure + string :=
  pattern 2 (take 10 (surcharges r)).

End Table.

(** ** The specification's tokenizer and assembler

    These definitions follow the words of the specification (sections 4.1,
    4.2 and 4.5), to be compared with the loops above. *)

Module Spec.

Inductive token : Type :=
| Boundary
| Field (name value : string)
| Ignorable.

(** On a boundary a non-empty accumulator is emitted and a new one is
    started; a field overwrites its name in the accumulator; at the end
    of the input a non-empty accumulator is emitted. *)
Fixpoint assemble_from (acc : record) (ts : list token) : list record :=
  match ts with
  | [] => if truthy acc then [acc] else []
  | Boundary :: ts' =>
      (if truthy acc then [acc] else []) ++ assemble_from ∅ ts'
  | Field name value :: ts' => assemble_from (<[name := value]> acc) ts'
  | Ignorable :: ts' => assemble_from acc ts'
  end.

Definition assemble : list token → list record := assemble_from ∅.

(** Is there a field before the next boundary or the end of the input? *)
Fixpoint body_has_field (ts : list token) : bool :=
  match ts with
  | [] => false
  | Boundary :: _ => false
  | Field _ _ :: _ => true
  | Ignorable :: ts' => body_has_field ts'
  end.

(** The boundaries that are followed by at least one field before the
    next boundary or the end of the input. *)
Fixpoint boundaries_with_body (ts : list token) : nat :=
  match ts with
  | [] => 0
  | Boundary :: ts' =>
      (if body_has_field ts' then 1 else 0) + boundaries_with_body ts'
  | _ :: ts' => boundaries_with_body ts'
  end.

(** The same assembler as a fold (section 9): one token acts on the
    records emitted so far and the accumulator. *)
Definition step (s : list record * record) (t : token)
  : list record * record :=
  match t with
  | Boundary => (append_if_truthy s.1 s.2, ∅)
  | Field name value => (s.1, <[name := value]> s.2)
  | Ignorable => s
  end.

(** The accumulator when the input ends. *)
Fixpoint final_acc (acc : record) (ts : list token) : record :=
  match ts with
  | [] => acc
  | Boundary :: ts' => final_acc ∅ ts'
  | Field name value :: ts' => final_acc (<[name := value]> acc) ts'
  | Ignorable :: ts' => final_acc acc ts'
  end.

(** The text strictly between the first and the last quote of a line. *)
Fixpoint after_first_quote (s : string) : option string :=
  match s with
  | EmptyString => None
  | String c s' => if Py.is_quote c then Some s' else after_first_quote s'
  end.

Fixpoint before_last_quote (s : string) : option string :=
  match s with
  | EmptyString => None
  | String c s' =>
      match before_last_quote s' with
      | Some r => Some (String c r)
      | None => if Py.is_quote c then Some EmptyString else None
      end
  end.

Definition between_quotes (line : string) : option string :=
  s ← after_first_quote line; before_last_quote s.

(** A field line whose value is delimited by single quotes: the field
    name, a colon, a space and the quoted value, with text around. *)
Definition quoted_line (pre field value post : string) : string :=
  pre +:+ field +:+ ": '" +:+ value +:+ "'" +:+ post.

(** Are all the sets equal to one another? *)
Definition all_equal (sets : list (gset string)) : bool :=
  forallb (λ A, forallb (λ B, bool_decide (A = B)) sets) sets.

End Spec.

(** ** The token each loop reads from a line

    The loop bodies above decide three things per line: close the record,
    write a field, or do nothing.  The functions below name that decision;
    the refinement lemmas show each loop to be the assembler run on the
    tokens of its lines. *)

Module Tokens.
Import Spec.

(** [parse_price_records], for a line after the marker. *)
Definition price_token (line : string) : token :=
  if Py.startswith line "Record " then Boundary
  else if Py.contains ":" line
          && negb (Py.startswith (Py.strip line) "Table:") then
    match Py.cut Py.COLON line with
    | Some (p0, p1) => Field (Py.strip p0) (Py.strip_quotes (Py.strip p1))
    | None => Ignorable
    end
  else Ignorable.

(** [parse_price_records]: a marker line opens the records and is itself
    skipped; before the first one every line is skipped. *)
Fixpoint price_tokens (in_records : bool) (lines : list string)
  : list token :=
  match lines with
  | [] => []
  | line :: lines' =>
      if Py.contains Pricing.MARKER line then
        Ignorable :: price_tokens true lines'
      else if in_records then price_token line :: price_tokens true lines'
      else Ignorable :: price_tokens false lines'
  end.

(** [re.search] of a field's pattern, guarded by the containment test. *)
Definition quoted_field (plus : bool) (field line : string) : token :=
  if Py.contains (field +:+ ":") line then
    match Py.re_search plus (field +:+ ": ") line with
    | Some g => Field field g
    | None => Ignorable
    end
  else Ignorable.

(** [extract_articles] *)
Definition article_token (line : string) : token :=
  if Py.startswith line "Record" then Boundary
  else if Py.contains "article_nr:" line then
    quoted_field true "article_nr" line
  else quoted_field true "series" line.

(** [extract_price_data]: one token per field name of the inner loop. *)
Definition price_data_tokens (line : string) : list token :=
  if Py.startswith line "Record" then [Boundary]
  else map (λ field, quoted_field false field line) Compare.FIELDS.

(** The records emitted so far and the accumulator, as the loop
    variables of each script hold them. *)
Definition article_view (st : Framery.state) : list record * record :=
  (Framery.articles st, Framery.current_article st).

Definition price_view (st : Compare.state) : list record * record :=
  (Compare.prices st, Compare.current_price st).

(** [extract_propertyclass_mappings] *)
Definition mapping_token (line : string) : token :=
  if Py.startswith line "Record" then Boundary
  else if Py.contains "article_nr:" line then
    quoted_field true "article_nr" line
  else quoted_field true "prop_class" line.

(** [extract_propertyvalue_data] *)
Definition propvalue_tokens (line : string) : list token :=
  if Py.startswith line "Record" then [Boundary]
  else map (λ field, quoted_field false field line) Compare.PV_FIELDS.

Definition mapping_view (st : Framery.mapping_state)
  : list record * record :=
  (Framery.mapping_list st, Framery.current_mapping st).

Definition propvalue_view (st : Compare.pv_state) : list record * record :=
  (Compare.propvalues st, Compare.current_pv st).

End Tokens.

(** ** The specification's field projector

    A second description of what the field loops compute, to be compared
    with the loops themselves: the specification's records (section 4.2)
    and its projection on a list of field names (section 4.4).  What a
    line gives a field is the match of the field's pattern, [Py.re_search]
    as the scripts call it. *)

Module Projector.

(** Modelled from the spec: the records of a dump (section 4.2), as runs
    of lines: the lines before the first boundary line, and the lines
    after each boundary line up to the next one or the end. *)
Fixpoint segments (lines : list string) : list (list string) :=
  match lines with
  | [] => [[]]
  | line :: lines' =>
      if Py.startswith line "Record" then [] :: segments lines'
      else match segments lines' with
           | [] => [[line]]
           | segment :: rest => (line :: segment) :: rest
           end
  end.

(** Modelled from the spec: the value of a field in a record (section
    4.2, last write wins): that of the last line of the record on which
    the pattern of the field matches, if there is one. *)
Definition field_value (field : string) (segment : list string)
  : option string :=
  last (omap (Py.re_search false (field +:+ ": ")) segment).

(** Modelled from the spec: the projection (section 4.4), the requested
    names that have a value in the record, and no key for the others. *)
Definition project (fields : list string) (segment : list string) : record :=
  foldr (λ field m,
           match field_value field segment with
           | Some v => <[field := v]> m
           | None => m
           end) ∅ fields.

End Projector.

(** ** One logical row in both shapes

    The dump tool is not part of the scripts; its two outputs for one row
    are taken from the specification. *)

Module Row.
Import Investigation.

(** Modelled from the spec: the field line of the text dump (section 6),
    the field name, a colon, a space and the value between single
    quotes. *)
Definition field_line (name text : string) : string :=
  name +:+ ": '" +:+ text +:+ "'".

(** Modelled from the spec: the text dump of one row (sections 6 and 8):
    a boundary line and one field line per field.  How the tool writes a
    number or a boolean as text is not specified; [render] stands for
    it. *)
Definition dump (render : pyval → string) (row : list (string * pyval))
  : string :=
  Py.join Py.NL
    ("Record 1" :: map (λ kv, field_line kv.1 (render kv.2)) row).

(** Modelled from the spec: the decoded JSON object of the same row
    (section 4.3), which the JSON path uses as its record; a repeated key
    keeps its last value. *)
Definition json (row : list (string * pyval)) : jrecord :=
  foldl (λ m kv, <[kv.1 := kv.2]> m) ∅ row.

(** The fields that the text format can carry: the line has no line
    break and is no marker, boundary or banner line, the name has no
    colon and no blank at its ends, the text has no quote at its ends. *)
Definition well_formed (render : pyval → string) (kv : string * pyval)
  : bool :=
  let line := field_line kv.1 (render kv.2) in
  negb (Py.has_char Py.NL line)
  && negb (Py.contains Pricing.MARKER line)
  && negb (Py.startswith line "Record ")
  && negb (Py.startswith (Py.strip line) "Table:")
  && negb (Py.has_char Py.COLON kv.1)
  && bool_decide (Py.strip kv.1 = kv.1)
  && bool_decide (Py.strip_quotes (render kv.2) = render kv.2).

End Row.

(** ** Concrete dumps *)

Module Examples.

(** A field line before the first boundary. *)
Definition leading_field : string :=
  Py.join Py.NL ["article_nr: 'A'"; "Record 1"; "article_nr: 'B'"].

(** Boundary and field lines, no marker. *)
Definition no_marker : string :=
  Py.join Py.NL ["Record 1"; "price_level: 'B'"].

Definition after_marker : string :=
  Py.join Py.NL ["=== Records from ocd_price ==="; "Table: ocd_price";
                 "Record 2"; "price_level: 'X'"].

(** One price record of an unknown level. *)
Definition level_q : string :=
  Py.join Py.NL ["=== Records from ocd_price ==="; "Record 1";
                 "price_level: 'Q'"].

(** The scenario of the specification: a base price and a surcharge. *)
Definition base_and_surcharge : string :=
  Py.join Py.NL ["=== Records from ocd_price ==="; "Record 1";
                 "article_nr: 'X1'"; "price_level: 'B'"; "price: '100'";
                 "currency: 'EUR'"; "Record 2"; "article_nr: 'X2'";
                 "price_level: 'X'"; "price: '10'"; "currency: 'EUR'"].

(** A quoted value that holds a quote, and an empty quoted value. *)
Definition quote_inside : string := "var_cond: 'a'b'".
Definition empty_class : string := "prop_class: ''".
Definition empty_var_cond : string := "  var_cond: ''".

(** A price record with an empty variant condition. *)
Definition empty_var_cond_dump : string :=
  Py.join Py.NL ["Record 1"; empty_var_cond].

(** A decoded JSON price object with a level and nothing else, and the
    same object with the other fields spelled out as empty. *)
Definition level_only : Investigation.jrecord :=
  {["level" := Investigation.PStr "B"]}.

Definition level_and_blanks : Investigation.jrecord :=
  <["price" := Investigation.PInt 0]>
    (<["var_cond" := Investigation.PStr ""]>
       (<["article_nr" := Investigation.PStr ""]> level_only)).

(** The scenarios of the specification for the sharing check. *)
Definition framery_one : string * Framery.series_data :=
  ("frmr_one", Framery.SeriesData "" ["MG_GLOBAL"; "MG_PROPERTIES"] [] []).
Definition framery_2q : string * Framery.series_data :=
  ("frmr_2q", Framery.SeriesData "" ["MG_GLOBAL"; "MG_PROPERTIES"] [] []).
Definition fast_kr : string * Framery.series_data :=
  ("kr", Framery.SeriesData "" ["KR_A"; "KR_B"] [] []).
Definition fast_wkm : string * Framery.series_data :=
  ("wkm", Framery.SeriesData "" ["WKM_A"; "WKM_B"] [] []).

(** A price row with a number, and one way to write values as text. *)
Definition price_row : list (string * Investigation.pyval) :=
  [("article_nr", Investigation.PStr "X1");
   ("level", Investigation.PStr "B");
   ("price", Investigation.PInt 100)].

Definition render (v : Investigation.pyval) : string :=
  match v with
  | Investigation.PStr s => s
  | Investigation.PInt n => pretty n
  | Investigation.PBool b => if b then "true" else "false"
  | Investigation.PNone => ""
  end.

(** A dump of property values, and a second dump of articles that opens
    with a boundary. *)
Definition property_values : string :=
  Py.join Py.NL ["Record 0"; "  prop_class: 'MG_GLOBAL'";
                 "  property: 'COLOR'"; "  value_from: ''"].

Definition second_articles : string :=
  Py.join Py.NL ["Record 7"; "series: 'frmr_2q'"].

(** A second value for the level, and a banner line. *)
Definition level_x : string * Investigation.pyval :=
  ("price_level", Investigation.PStr "X").

Definition banner : string := "  Table: ocd_price (2 records)".

(** A decoded price object that keeps the level under the key of the
    text dump. *)
Definition keyed_by_price_level : Investigation.jrecord :=
  {["price_level" := Investigation.PStr "B";
    "article_nr" := Investigation.PStr "X1"]}.

(** A price object whose variant condition is null. *)
Definition null_var_cond : Investigation.jrecord :=
  {["level" := Investigation.PStr "B";
    "var_cond" := Investigation.PNone]}.

(** A line with the marker of the price table. *)
Definition marker_line : string := "=== Records from ocd_price ===".

(** A price row that holds its level under both keys. *)
Definition two_key_row : list (string * Investigation.pyval) :=
  [("article_nr", Investigation.PStr "X1");
   ("level", Investigation.PStr "B");
   ("price_level", Investigation.PStr "B");
   ("price", Investigation.PInt 100)].

(** Rows of strings that the text format cannot carry: a value with a
    line break, a value with the marker, a name that starts like a
    boundary, the name of the banner, a name with a colon, a name with a
    blank in front, a value with a quote in front. *)
Definition row_with_break : list (string * Investigation.pyval) :=
  [("a", Investigation.PStr (String "x" (String Py.NL "y")))].
Definition row_with_marker : list (string * Investigation.pyval) :=
  [("a", Investigation.PStr "=== Records from ocd_price")].
Definition row_like_boundary : list (string * Investigation.pyval) :=
  [("Record x", Investigation.PStr "1")].
Definition row_like_banner : list (string * Investigation.pyval) :=
  [("Table", Investigation.PStr "t")].
Definition row_with_colon : list (string * Investigation.pyval) :=
  [("a:b", Investigation.PStr "1")].
Definition row_with_blank : list (string * Investigation.pyval) :=
  [(" a", Investigation.PStr "1")].
Definition row_with_quote : list (string * Investigation.pyval) :=
  [("a", Investigation.PStr "'q")].

(** Two price records, the first with an empty variant condition only,
    the second with an article number only. *)
Definition two_price_records : string :=
  Py.join Py.NL ["Record 0"; "var_cond: ''"; "Record 1"; "article_nr: 'A'"].

End Examples.

(** * Properties *)

(** ** Strings *)

Section Strings.
Import Py.

Lemma append_nil_l (s : string) : "" +:+ s = s.
Proof. reflexivity. Qed.

Lemma append_cons (c : ascii) (s t : string) :
  String c s +:+ t = String c (s +:+ t).
Proof. reflexivity. Qed.

Lemma append_nil_r (s : string) : s +:+ "" = s.
Proof. induction s as [|c s IH]; [done|]. by rewrite append_cons, IH. Qed.

Lemma append_assoc (s t u : string) : (s +:+ t) +:+ u = s +:+ (t +:+ u).
Proof.
  induction s as [|c s IH]; [done|]. by rewrite !append_cons, IH.
Qed.

Lemma startswith_nil (s : string) : startswith s "" = true.
Proof. by destruct s. Qed.

Lemma startswith_app (p s : string) : startswith (p +:+ s) p = true.
Proof.
  induction p as [|c p IH]; [apply startswith_nil|].
  rewrite append_cons. simpl. by rewrite Ascii.eqb_refl, IH.
Qed.

Lemma startswith_app_l (s t p : string) :
  startswith s p = true → startswith (s +:+ t) p = true.
Proof.
  revert s. induction p as [|c p IH]; intros s H.
  - apply startswith_nil.
  - destruct s as [|b s]; [done|]. rewrite append_cons. simpl in *.
    apply andb_true_iff in H as [-> H]. by rewrite (IH _ H).
Qed.

(** A prefix that is read splits the string. *)
Lemma startswith_inv (s p : string) :
  startswith s p = true → s = p +:+ drop (String.length p) s.
Proof.
  revert s. induction p as [|c p IH]; intros s H; [done|].
  destruct s as [|b s]; [done|]. simpl in H.
  apply andb_true_iff in H as [Hc H]. apply Ascii.eqb_eq in Hc as ->.
  rewrite append_cons. simpl. by rewrite <- (IH _ H).
Qed.

Lemma drop_app (p s : string) : drop (String.length p) (p +:+ s) = s.
Proof. induction p as [|c p IH]; [by destruct s|]. by rewrite append_cons. Qed.

Lemma length_append (s t : string) :
  String.length (s +:+ t) = String.length s + String.length t.
Proof.
  induction s as [|c s IH]; [done|]. rewrite append_cons. simpl. by rewrite IH.
Qed.

Lemma contains_app_l (sub s t : string) :
  contains sub s = true → contains sub (s +:+ t) = true.
Proof.
  induction s as [|c s IH]; intros H.
  - cbn [contains] in H. rewrite orb_false_r in H. destruct sub; [|done].
    rewrite append_nil_l. by destruct t.
  - rewrite append_cons. cbn [contains] in *.
    apply orb_true_iff in H as [H|H].
    + change (String c (s +:+ t)) with (String c s +:+ t).
      by rewrite (startswith_app_l _ _ _ H).
    + rewrite (IH H). apply orb_true_r.
Qed.

Lemma contains_app_r (sub s t : string) :
  contains sub t = true → contains sub (s +:+ t) = true.
Proof.
  intros H. induction s as [|c s IH]; [done|].
  rewrite append_cons. cbn [contains]. rewrite IH. apply orb_true_r.
Qed.

Lemma contains_cons (sub : string) (c : ascii) (s : string) :
  contains sub s = true → contains sub (String c s) = true.
Proof. intros H. cbn [contains]. rewrite H. apply orb_true_r. Qed.

(** [split] and [join] *)

Lemma split_not_nil (sep : ascii) (s : string) : split sep s ≠ [].
Proof.
  induction s as [|c s IH]; simpl; [done|].
  destruct (Ascii.eqb c sep); [done|]. by destruct (split sep s).
Qed.

Lemma join_cons (sep : ascii) (l : string) (ls : list string) :
  ls ≠ [] → join sep (l :: ls) = l +:+ String sep (join sep ls).
Proof. by destruct ls. Qed.

Lemma join_split (sep : ascii) (s : string) : join sep (split sep s) = s.
Proof.
  induction s as [|c s IH]; simpl; [done|].
  destruct (Ascii.eqb_spec c sep) as [->|Hne].
  - rewrite join_cons by apply split_not_nil. by rewrite IH.
  - pose proof (split_not_nil sep s) as Hnil.
    destruct (split sep s) as [|l ls]; [done|].
    destruct ls as [|l' ls].
    + simpl in *. by rewrite IH.
    + rewrite join_cons by done. rewrite join_cons in IH by done.
      rewrite append_cons. by rewrite IH.
Qed.

Lemma contains_join (sub : string) (sep : ascii) (ls : list string)
      (l : string) :
  l ∈ ls → contains sub l = true → contains sub (join sep ls) = true.
Proof.
  intros Hin Hl. induction ls as [|x ls IH]; [by apply elem_of_nil in Hin|].
  destruct ls as [|y ls].
  - apply list_elem_of_singleton in Hin as ->. exact Hl.
  - rewrite join_cons by done.
    apply elem_of_cons in Hin as [->|Hin].
    + by apply contains_app_l.
    + apply contains_app_r, contains_cons. by apply IH.
Qed.

(** A line of a text that lacks [sub] lacks [sub]. *)
Lemma contains_split_false (sub : string) (s l : string) :
  contains sub s = false → l ∈ split NL s → contains sub l = false.
Proof.
  intros Hs Hin. destruct (contains sub l) eqn:Hl; [|done].
  by rewrite <- Hs, <- (join_split NL s), (contains_join _ _ _ _ Hin Hl).
Qed.

Lemma split_app (sep : ascii) (s t : string) :
  has_char sep s = false →
  split sep (s +:+ String sep t) = s :: split sep t.
Proof.
  induction s as [|c s IH]; intros H.
  - rewrite append_nil_l. simpl. by rewrite Ascii.eqb_refl.
  - simpl in H. apply orb_false_iff in H as [Hc H].
    rewrite append_cons. simpl. rewrite Hc. by rewrite (IH H).
Qed.

Lemma split_app_lines (sep : ascii) (s t : string) :
  split sep (s +:+ String sep t) = split sep s ++ split sep t.
Proof.
  induction s as [|c s IH].
  - rewrite append_nil_l. simpl. by rewrite Ascii.eqb_refl.
  - rewrite append_cons. simpl. destruct (Ascii.eqb c sep).
    + by rewrite IH.
    + rewrite IH. pose proof (split_not_nil sep s).
      by destruct (split sep s).
Qed.

End Strings.

(** ** The assembler *)

Section Assembler.
Import Spec.

Lemma truthy_empty : truthy (∅ : record) = false.
Proof. unfold truthy. by rewrite bool_decide_eq_true_2. Qed.

Lemma truthy_insert (k v : string) (acc : record) :
  truthy (<[k := v]> acc) = true.
Proof.
  unfold truthy. rewrite bool_decide_eq_false_2; [done|].
  apply insert_non_empty.
Qed.

Lemma truthy_true (d : record) : truthy d = true → d ≠ ∅.
Proof.
  unfold truthy. intros H ->. by rewrite bool_decide_eq_true_2 in H.
Qed.

Lemma append_if_truthy_app (l : list record) (d : record) :
  append_if_truthy l d = l ++ (if truthy d then [d] else []).
Proof. unfold append_if_truthy. destruct (truthy d); by rewrite ?app_nil_r. Qed.

Lemma assemble_from_ignorable (acc : record) (ts ts' : list token) :
  Forall (λ t, t = Ignorable) ts →
  assemble_from acc (ts ++ ts') = assemble_from acc ts'.
Proof. induction 1 as [|t ts -> _ IH]; [done|]. exact IH. Qed.

(** No record is emitted from an empty accumulator. *)
Lemma assemble_from_nonempty (acc : record) (ts : list token) :
  Forall (λ r, r ≠ ∅) (assemble_from acc ts).
Proof.
  revert acc. induction ts as [|t ts IH]; intros acc; simpl.
  - destruct (truthy acc) eqn:H; [|done].
    apply Forall_singleton. by apply truthy_true.
  - destruct t as [|name value|]; [|apply IH..].
    apply Forall_app. split; [|apply IH].
    destruct (truthy acc) eqn:H; [|done].
    apply Forall_singleton. by apply truthy_true.
Qed.

(** One record per segment that holds a field: the segment before the
    first boundary, and the body of every boundary. *)
Lemma length_assemble_from (acc : record) (ts : list token) :
  length (assemble_from acc ts) =
  (if truthy acc || body_has_field ts then 1 else 0)
  + boundaries_with_body ts.
Proof.
  revert acc. induction ts as [|t ts IH]; intros acc; simpl.
  - rewrite orb_false_r. by destruct (truthy acc).
  - destruct t as [|name value|].
    + rewrite length_app, IH, truthy_empty, orb_false_r. simpl.
      destruct (truthy acc); simpl; lia.
    + rewrite IH, truthy_insert, orb_true_r. done.
    + apply IH.
Qed.

(** The accumulator left at the end of the input, when it is not empty,
    is the last record. *)
Lemma last_assemble_from (acc : record) (ts : list token) :
  last (assemble_from acc ts) =
  if truthy (final_acc acc ts) then Some (final_acc acc ts)
  else last (assemble_from acc ts).
Proof.
  revert acc. induction ts as [|t ts IH]; intros acc; simpl.
  - by destruct (truthy acc).
  - destruct t as [|name value|]; [|apply IH..].
    destruct (truthy (final_acc ∅ ts)) eqn:Hf; [|done].
    specialize (IH ∅). rewrite Hf in IH.
    destruct (assemble_from ∅ ts) as [|r rs] eqn:Hrs using rev_ind;
      [done|].
    by rewrite app_assoc, last_snoc in *.
Qed.

End Assembler.

(** ** The assembler as a fold *)

Section Fold.
Import Spec.

Lemma foldl_step (ts : list token) (s : list record * record) :
  append_if_truthy (foldl step s ts).1 (foldl step s ts).2
  = s.1 ++ assemble_from s.2 ts
  ∧ (foldl step s ts).2 = final_acc s.2 ts.
Proof.
  revert s. induction ts as [|t ts IH]; intros [out acc]; simpl.
  - by rewrite append_if_truthy_app.
  - destruct t as [|name value|]; simpl; try apply IH.
    destruct (IH (append_if_truthy out acc, ∅)) as [-> ->]. simpl.
    by rewrite append_if_truthy_app, <- app_assoc.
Qed.

Lemma foldl_concat {A B} (f : A → B → A) (a : A) (ls : list (list B)) :
  foldl f a (concat ls) = foldl (λ a l, foldl f a l) a ls.
Proof.
  revert a. induction ls as [|l ls IH]; intros a; simpl; [done|].
  by rewrite foldl_app, IH.
Qed.

Lemma concat_map_singleton {A B} (f : A → B) (l : list A) :
  concat (map (λ x, [f x]) l) = map f l.
Proof. induction l as [|x l IH]; simpl; by f_equal. Qed.

(** A loop whose body acts as the tokens of the line do is the assembler
    run on the tokens of all lines. *)
Lemma loop_assemble {S} (body : S → string → S)
      (view : S → list record * record) (tokens : string → list token)
      (lines : list string) (st : S) :
  (∀ st line, view (body st line) = foldl step (view st) (tokens line)) →
  let ts := concat (map tokens lines) in
  let st' := foldl body st lines in
  append_if_truthy (view st').1 (view st').2
  = (view st).1 ++ assemble_from (view st).2 ts
  ∧ (view st').2 = final_acc (view st).2 ts.
Proof.
  intros Hbody ts st'.
  assert (view st' = foldl step (view st) ts) as ->; [|apply foldl_step].
  subst ts st'. rewrite foldl_concat.
  revert st. induction lines as [|l lines IH]; intros st; simpl; [done|].
  by rewrite IH, Hbody.
Qed.

End Fold.

(** ** The loop of parse_price_records *)

Section PricingLoop.
Import Spec Tokens Pricing.

(** After the marker, one line does to the loop variables what its token
    does to the assembler; indexing [parts] never raises there, because
    the length test guards it. *)
Lemma parse_line_token (st : state) (line : string) :
  in_records st = true →
  Py.contains MARKER line = false →
  parse_line st line = Ok
    match price_token line with
    | Boundary =>
        State (append_if_truthy (prices st) (current_record st)) ∅ true
    | Field key value =>
        State (prices st) (<[key := value]> (current_record st)) true
    | Ignorable => st
    end.
Proof.
  intros Hin Hm. unfold parse_line, price_token. rewrite Hm, Hin. simpl negb.
  cbv iota. destruct (Py.startswith line "Record "); [done|].
  destruct (Py.contains ":" line
            && negb (Py.startswith (Py.strip line) "Table:")); [|done].
  unfold Py.split_once. by destruct (Py.cut Py.COLON line) as [[p0 p1]|].
Qed.

Lemma parse_line_marker (st : state) (line : string) :
  Py.contains MARKER line = true →
  parse_line st line = Ok (State (prices st) (current_record st) true).
Proof. intros Hm. unfold parse_line. by rewrite Hm. Qed.

Lemma parse_line_skip (st : state) (line : string) :
  Py.contains MARKER line = false → in_records st = false →
  parse_line st line = Ok st.
Proof. intros Hm Hin. unfold parse_line. by rewrite Hm, Hin. Qed.

Lemma for_each_parse_line (lines : list string) (st : state) :
  ∃ st', for_each parse_line st lines = Ok st'
    ∧ append_if_truthy (prices st') (current_record st')
      = prices st ++ assemble_from (current_record st)
                       (price_tokens (in_records st) lines)
    ∧ current_record st'
      = final_acc (current_record st) (price_tokens (in_records st) lines).
Proof.
  revert st. induction lines as [|line lines IH]; intros st.
  - exists st. simpl. by rewrite append_if_truthy_app.
  - cbn [for_each price_tokens].
    destruct (Py.contains MARKER line) eqn:Hm.
    { rewrite (parse_line_marker _ _ Hm).
      destruct (IH (State (prices st) (current_record st) true))
        as (st' & Hrun & Hout & Hacc).
      exists st'. by split. }
    destruct (in_records st) eqn:Hin.
    2:{ rewrite (parse_line_skip _ _ Hm Hin).
        destruct (IH st) as (st' & Hrun & Hout & Hacc).
        rewrite Hin in Hout, Hacc. exists st'. by split. }
    rewrite (parse_line_token _ _ Hin Hm).
    destruct (price_token line) as [|key value|].
    + destruct (IH (State (append_if_truthy (prices st) (current_record st))
                          ∅ true)) as (st' & Hrun & Hout & Hacc).
      exists st'. split; [exact Hrun|]. split; [|exact Hacc].
      rewrite Hout. cbn [prices current_record in_records assemble_from].
      by rewrite append_if_truthy_app, <- app_assoc.
    + destruct (IH (State (prices st) (<[key := value]> (current_record st))
                          true)) as (st' & Hrun & Hout & Hacc).
      exists st'. by split.
    + destruct (IH st) as (st' & Hrun & Hout & Hacc).
      rewrite Hin in Hout, Hacc. exists st'. by split.
Qed.

(** [parse_price_records] is the assembler run on the tokens of the
    lines, and it never raises. *)
Lemma parse_price_records_assemble (output : string) :
  parse_price_records output
  = Ok (assemble (price_tokens false (Py.split Py.NL output))).
Proof.
  unfold parse_price_records.
  destruct (for_each_parse_line (Py.split Py.NL output) initial)
    as (st' & -> & Hout & _).
  simpl. by rewrite Hout.
Qed.

Lemma price_tokens_before_marker (lines : list string) :
  Forall (λ l, Py.contains MARKER l = false) lines →
  Forall (λ t, t = Ignorable) (price_tokens false lines).
Proof.
  induction 1 as [|l lines Hl _ IH]; simpl; [done|]. rewrite Hl. by constructor.
Qed.

Lemma price_tokens_app (lines lines' : list string) :
  Forall (λ l, Py.contains MARKER l = false) lines →
  price_tokens false (lines ++ lines')
  = price_tokens false lines ++ price_tokens false lines'.
Proof.
  induction 1 as [|l lines Hl _ IH]; simpl; [done|]. by rewrite Hl, IH.
Qed.

End PricingLoop.

(** ** The loops of extract_articles and extract_price_data *)

Section RegexLoops.
Import Spec Tokens.

Lemma article_line_token (st : Framery.state) (line : string) :
  article_view (Framery.article_line st line)
  = foldl step (article_view st) [article_token line].
Proof.
  unfold Framery.article_line, article_token, quoted_field. simpl.
  destruct (Py.startswith line "Record"); [done|].
  change ("article_nr" +:+ ":") with "article_nr:".
  change ("article_nr" +:+ ": ") with "article_nr: ".
  change ("series" +:+ ":") with "series:".
  change ("series" +:+ ": ") with "series: ".
  destruct (Py.contains "article_nr:" line).
  - by destruct (Py.re_search true "article_nr: " line).
  - destruct (Py.contains "series:" line); [|done].
    by destruct (Py.re_search true "series: " line).
Qed.

Lemma price_field_token (line : string) (s : list record * record)
      (fields : list string) :
  foldl step s (map (λ field, quoted_field false field line) fields)
  = (s.1, foldl (Compare.price_field line) s.2 fields).
Proof.
  revert s. induction fields as [|f fields IH]; intros [out acc]; [done|].
  simpl. rewrite IH. unfold quoted_field, Compare.price_field.
  destruct (Py.contains (f +:+ ":") line); [|done].
  by destruct (Py.re_search false (f +:+ ": ") line).
Qed.

Lemma price_line_token (st : Compare.state) (line : string) :
  price_view (Compare.price_line st line)
  = foldl step (price_view st) (price_data_tokens line).
Proof.
  unfold Compare.price_line, price_data_tokens.
  destruct (Py.startswith line "Record"); [done|].
  by rewrite price_field_token.
Qed.

Lemma extract_articles_assemble (output : string) :
  Framery.extract_articles output
  = assemble (map article_token (Py.split Py.NL output)).
Proof.
  unfold Framery.extract_articles.
  destruct (loop_assemble Framery.article_line article_view
              (λ l, [article_token l]) (Py.split Py.NL output)
              (Framery.State [] ∅) article_line_token) as [H _].
  simpl in H. rewrite H. unfold assemble. f_equal.
  apply concat_map_singleton.
Qed.

Lemma extract_price_data_assemble (output : string) :
  Compare.extract_price_data output
  = assemble (concat (map price_data_tokens (Py.split Py.NL output))).
Proof.
  unfold Compare.extract_price_data.
  destruct (loop_assemble Compare.price_line price_view price_data_tokens
              (Py.split Py.NL output) (Compare.State [] ∅)
              price_line_token) as [H _].
  exact H.
Qed.

End RegexLoops.

(** ** Records per segment (C1) *)

Section Segments.
Import Spec Tokens.

(** C1, as the claim states it, fails: the field line before the first
    boundary of [Examples.leading_field] is emitted as a record of its
    own, so [extract_articles] returns two records where one boundary is
    followed by a field line. *)
Lemma leading_fields_make_a_record :
  length (Framery.extract_articles Examples.leading_field)
  ≠ boundaries_with_body
      (map article_token (Py.split Py.NL Examples.leading_field)).
Proof. vm_compute. lia. Qed.

(** C1 (amended): for every text input the assembler emits exactly one
    record per segment that holds at least one field line, the segments
    being the lines before the first boundary and the lines after each
    boundary up to the next boundary or the end of the input.  So a
    boundary followed at once by another boundary yields no record, no
    record is emitted from an empty accumulator, and an accumulator that
    is not empty at the end of the input is the final record.  For
    [parse_price_records] the tokens are those of [price_tokens], which
    skips the lines up to the first marker. *)
Theorem one_record_per_segment (output : string) :
  (∃ st prices,
     for_each Pricing.parse_line Pricing.initial (Py.split Py.NL output)
     = Ok st
     ∧ Pricing.parse_price_records output = Ok prices
     ∧ length prices
       = (if body_has_field (price_tokens false (Py.split Py.NL output))
          then 1 else 0)
         + boundaries_with_body (price_tokens false (Py.split Py.NL output))
     ∧ Forall (λ r, r ≠ ∅) prices
     ∧ last prices
       = if truthy (Pricing.current_record st)
         then Some (Pricing.current_record st) else last prices)
  ∧ length (Framery.extract_articles output)
    = (if body_has_field (map article_token (Py.split Py.NL output))
       then 1 else 0)
      + boundaries_with_body (map article_token (Py.split Py.NL output))
  ∧ Forall (λ r, r ≠ ∅) (Framery.extract_articles output)
  ∧ last (Framery.extract_articles output)
    = if truthy (Framery.current_article
                   (foldl Framery.article_line (Framery.State [] ∅)
                      (Py.split Py.NL output)))
      then Some (Framery.current_article
                   (foldl Framery.article_line (Framery.State [] ∅)
                      (Py.split Py.NL output)))
      else last (Framery.extract_articles output).
Proof.
  split.
  - destruct (for_each_parse_line (Py.split Py.NL output) Pricing.initial)
      as (st & Hrun & _ & Hacc).
    exists st. eexists. split; [exact Hrun|].
    split; [apply parse_price_records_assemble|].
    unfold assemble. rewrite length_assemble_from, truthy_empty.
    split; [done|]. split; [apply assemble_from_nonempty|].
    rewrite Hacc. apply last_assemble_from.
  - destruct (loop_assemble Framery.article_line article_view
                (λ l, [article_token l]) (Py.split Py.NL output)
                (Framery.State [] ∅) article_line_token) as [_ Hacc].
    simpl in Hacc. rewrite concat_map_singleton in Hacc. rewrite Hacc.
    rewrite extract_articles_assemble. unfold assemble.
    rewrite length_assemble_from, truthy_empty.
    split; [done|]. split; [apply assemble_from_nonempty|].
    apply last_assemble_from.
Qed.

End Segments.

(** ** Nothing before the marker (C10) *)

Section Marker.
Import Spec Tokens Pricing.

(** C10: an input that lacks the marker gives no price record, and the
    lines before the first marker line, boundaries and fields alike,
    leave the result unchanged. *)
Theorem nothing_before_marker (pre rest : string) :
  Py.contains MARKER pre = false →
  parse_price_records pre = Ok []
  ∧ parse_price_records (pre +:+ String Py.NL rest)
    = parse_price_records rest.
Proof.
  intros Hpre.
  assert (Forall (λ l, Py.contains MARKER l = false) (Py.split Py.NL pre))
    as Hlines.
  { apply Forall_forall. intros l Hl.
    by apply (contains_split_false _ pre). }
  pose proof (price_tokens_before_marker _ Hlines) as Hign.
  rewrite !parse_price_records_assemble. unfold assemble. split.
  - rewrite <- (app_nil_r (price_tokens false _)).
    by rewrite (assemble_from_ignorable _ _ _ Hign).
  - rewrite split_app_lines, (price_tokens_app _ _ Hlines).
    by rewrite (assemble_from_ignorable _ _ _ Hign).
Qed.

Lemma nothing_before_marker_witness :
  Py.contains MARKER Examples.no_marker = false
  ∧ parse_price_records Examples.no_marker = Ok []
  ∧ parse_price_records
      (Examples.no_marker +:+ String Py.NL Examples.after_marker)
    = parse_price_records Examples.after_marker.
Proof.
  split; [reflexivity|].
  apply (nothing_before_marker Examples.no_marker Examples.after_marker).
  reflexivity.
Defined.

End Marker.

(** ** The price classifier (C2, C7) *)

Section Classifier.
Import Pricing.

(** The three tests of [analyze_manufacturer] on one record. *)
Lemma level_tests_exclusive (p : record) :
  Nat.b2n (bool_decide (level p = Some "B"))
  + Nat.b2n (bool_decide (level p = Some "X"))
  + Nat.b2n (bool_decide (level p ∉ [Some "B"; Some "X"])) = 1.
Proof.
  destruct (decide (level p = Some "B")) as [HB|HB].
  { rewrite HB. by vm_compute. }
  destruct (decide (level p = Some "X")) as [HX|HX].
  { rewrite HX. by vm_compute. }
  rewrite !bool_decide_eq_false_2 by done.
  rewrite bool_decide_eq_true_2; [done|].
  rewrite !not_elem_of_cons. split_and!; try done. apply not_elem_of_nil.
Qed.

Lemma length_filter_b2n {A} (P : A → Prop) `{∀ x, Decision (P x)}
      (l : list A) :
  length (filter P l) = sum_list (map (λ x, Nat.b2n (bool_decide (P x))) l).
Proof.
  induction l as [|x l IH]; [done|]. rewrite filter_cons. cbn [map sum_list].
  destruct (decide (P x));
    [rewrite bool_decide_eq_true_2 by done
    |rewrite bool_decide_eq_false_2 by done]; simpl; by rewrite IH.
Qed.

Lemma buckets_sum (prices : list record) :
  length (filter (λ p, level p = Some "B") prices)
  + length (filter (λ p, level p = Some "X") prices)
  + length (filter (λ p, level p ∉ [Some "B"; Some "X"]) prices)
  = length prices.
Proof.
  rewrite !length_filter_b2n.
  induction prices as [|p prices IH]; [done|]. simpl.
  pose proof (level_tests_exclusive p). lia.
Qed.

Lemma analyze_manufacturer_ok (name output : string) :
  analyze_manufacturer name output
  = prices ← parse_price_records output;
    Ok (Report name (length prices)
          (length (filter (λ p, level p = Some "B") prices))
          (length (filter (λ p, level p = Some "X") prices))
          (length (filter (λ p, level p ∉ [Some "B"; Some "X"]) prices))
          (filter (λ p, level p = Some "B") prices)).
Proof. reflexivity. Qed.

(** C2: every price record passes exactly one of the three tests, Base
    (the level is B), Surcharge (the level is X) and Other (any other
    level, or none), and for every dump the three counts of the report
    add up to its total, the number of records parsed. *)
Theorem price_level_partition (name output : string) :
  (∀ p : record,
     Nat.b2n (bool_decide (level p = Some "B"))
     + Nat.b2n (bool_decide (level p = Some "X"))
     + Nat.b2n (bool_decide (level p ∉ [Some "B"; Some "X"])) = 1)
  ∧ ∃ prices r,
      parse_price_records output = Ok prices
      ∧ analyze_manufacturer name output = Ok r
      ∧ total r = length prices
      ∧ base r = length (filter (λ p, level p = Some "B") prices)
      ∧ surcharges r = length (filter (λ p, level p = Some "X") prices)
      ∧ corrupt r
        = length (filter (λ p, level p ∉ [Some "B"; Some "X"]) prices)
      ∧ base r + surcharges r + corrupt r = total r.
Proof.
  split; [apply level_tests_exclusive|].
  rewrite analyze_manufacturer_ok, parse_price_records_assemble.
  eexists _, _. repeat (split; [reflexivity|]). apply buckets_sum.
Qed.

(** C7: when no parsed record has the level B, [analyze_manufacturer]
    still returns its report, with no base prices and a base count of
    zero, and the key findings of [main] report it as the warning, not
    as an error. *)
Theorem no_base_price_is_a_warning (name output : string)
        (prices : list record) :
  parse_price_records output = Ok prices →
  length (filter (λ p, level p = Some "B") prices) = 0 →
  ∃ r, analyze_manufacturer name output = Ok r
       ∧ base_prices r = [] ∧ base r = 0 ∧ total r = length prices
       ∧ key_findings [r] = [NoBasePrices name].
Proof.
  intros Hparse Hzero. rewrite analyze_manufacturer_ok, Hparse.
  eexists. split; [reflexivity|]. simpl.
  apply length_zero_iff_nil in Hzero as Hnil. rewrite Hnil.
  by repeat split.
Qed.

Lemma no_base_price_is_a_warning_witness :
  parse_price_records Examples.level_q = Ok [{["price_level" := "Q"]}]
  ∧ length (filter (λ p, level p = Some "B")
              [({["price_level" := "Q"]} : record)]) = 0
  ∧ ∃ r, analyze_manufacturer "Framery 2Q" Examples.level_q = Ok r
         ∧ base_prices r = [] ∧ base r = 0 ∧ total r = 1
         ∧ key_findings [r] = [NoBasePrices "Framery 2Q"].
Proof.
  split; [vm_compute; reflexivity|]. split; [vm_compute; reflexivity|].
  apply (no_base_price_is_a_warning "Framery 2Q" Examples.level_q
           [{["price_level" := "Q"]}]); vm_compute; reflexivity.
Defined.

(** The scenario of the specification: one base price, one surcharge,
    nothing else. *)
Example base_and_surcharge_report :
  ∃ p, analyze_manufacturer "Framery" Examples.base_and_surcharge
       = Ok (Report "Framery" 2 1 1 0 [p])
       ∧ p !! "article_nr" = Some "X1" ∧ p !! "price" = Some "100"
       ∧ p !! "currency" = Some "EUR".
Proof. eexists. split; [by vm_compute|]. by vm_compute. Qed.

End Classifier.

(** ** Totality (C8) *)

Section Totality.
Import Spec Tokens.

(** C8: the tokenizer and the assembler are total.  Every line has its
    token, every loop is the assembler run on the tokens of the lines,
    and no step raises: the body of [parse_price_records] returns a
    state from every state and line, the whole parse returns a list of
    records, and so does [extract_price_data]. *)
Theorem tokenizer_and_assembler_total (output : string) :
  (∀ st line, ∃ st', Pricing.parse_line st line = Ok st')
  ∧ (∀ st lines, ∃ st', for_each Pricing.parse_line st lines = Ok st')
  ∧ Pricing.parse_price_records output
    = Ok (assemble (price_tokens false (Py.split Py.NL output)))
  ∧ Compare.extract_price_data output
    = assemble (concat (map price_data_tokens (Py.split Py.NL output))).
Proof.
  split_and!.
  - intros st line.
    destruct (for_each_parse_line [line] st) as (st' & Hrun & _).
    simpl in Hrun. destruct (Pricing.parse_line st line) as [st1|e] eqn:H1.
    + by exists st1.
    + done.
  - intros st lines.
    destruct (for_each_parse_line lines st) as (st' & Hrun & _).
    by exists st'.
  - apply parse_price_records_assemble.
  - apply extract_price_data_assemble.
Qed.

End Totality.

(** ** Quoted values (C4) *)

Section Quoted.
Import Py.

Lemma has_char_app (c : ascii) (s t : string) :
  has_char c (s +:+ t) = has_char c s || has_char c t.
Proof.
  induction s as [|a s IH]; [done|].
  rewrite append_cons. simpl. by rewrite IH, orb_assoc.
Qed.

Lemma span_unquoted_app (v rest : string) :
  has_char QUOTE v = false →
  span_unquoted (v +:+ String QUOTE rest) = (v, String QUOTE rest).
Proof.
  induction v as [|c v IH]; intros H; [done|].
  simpl in H. apply orb_false_iff in H as [Hc H].
  rewrite append_cons. simpl. unfold is_quote. by rewrite Hc, (IH H).
Qed.

Lemma span_unquoted_spec (s g rest : string) :
  span_unquoted s = (g, rest) →
  s = g +:+ rest ∧ has_char QUOTE g = false
  ∧ (rest = "" ∨ ∃ rest', rest = String QUOTE rest').
Proof.
  revert g. induction s as [|c s IH]; intros g H; simpl in H.
  - injection H as <- <-. auto.
  - unfold is_quote in H. destruct (Ascii.eqb_spec c QUOTE) as [->|Hne].
    + injection H as <- <-. eauto.
    + destruct (span_unquoted s) as [a b]. injection H as <- <-.
      destruct (IH a eq_refl) as (-> & Ha & Hb).
      split; [done|]. split; [|done]. simpl. rewrite Ha.
      by apply orb_false_iff, conj; [apply Ascii.eqb_neq|].
Qed.

(** The attempt at the position of the field. *)
Lemma match_here_exact (plus : bool) (prefix v post : string) :
  has_char QUOTE v = false →
  match_here plus prefix
    ((prefix +:+ String QUOTE "") +:+ v +:+ String QUOTE post)
  = if plus && bool_decide (v = "") then None else Some v.
Proof.
  intros Hv. unfold match_here. rewrite startswith_app.
  replace (String.length prefix + 1)
    with (String.length (prefix +:+ String QUOTE "")).
  2:{ by rewrite length_append. }
  by rewrite drop_app, (span_unquoted_app _ _ Hv).
Qed.

Lemma re_search_unfold (plus : bool) (prefix s : string) :
  re_search plus prefix s
  = match match_here plus prefix s with
    | Some g => Some g
    | None =>
        match s with
        | EmptyString => None
        | String _ s' => re_search plus prefix s'
        end
    end.
Proof. by destruct s. Qed.

(** A match somewhere on the line makes the search succeed. *)
Lemma re_search_complete (plus : bool) (prefix pre v post : string) :
  has_char QUOTE v = false →
  plus && bool_decide (v = "") = false →
  ∃ g, re_search plus prefix
         (pre +:+ (prefix +:+ String QUOTE "") +:+ v +:+ String QUOTE post)
       = Some g.
Proof.
  intros Hv Hplus. induction pre as [|c pre [g IH]].
  - rewrite append_nil_l. exists v.
    by rewrite re_search_unfold, (match_here_exact _ _ _ _ Hv), Hplus.
  - rewrite append_cons, re_search_unfold.
    destruct (match_here plus prefix _) as [g'|]; eauto.
Qed.

(** What the search returns stands on the line between the quote that
    follows the prefix and the next quote. *)
Lemma re_search_sound (plus : bool) (prefix line g : string) :
  re_search plus prefix line = Some g →
  ∃ pre post,
    line = pre +:+ (prefix +:+ String QUOTE "") +:+ g +:+ String QUOTE post
    ∧ has_char QUOTE g = false
    ∧ plus && bool_decide (g = "") = false.
Proof.
  assert (∀ s, match_here plus prefix s = Some g →
    ∃ post, s = (prefix +:+ String QUOTE "") +:+ g +:+ String QUOTE post
            ∧ has_char QUOTE g = false
            ∧ plus && bool_decide (g = "") = false) as Hhere.
  { intros s. unfold match_here.
    destruct (startswith s (prefix +:+ String QUOTE "")) eqn:Hs; [|done].
    apply startswith_inv in Hs. rewrite length_append in Hs. simpl in Hs.
    destruct (span_unquoted _) as [g' rest] eqn:Hspan.
    apply span_unquoted_spec in Hspan as (Hd & Hg & Hrest).
    destruct rest as [|c rest]; [done|].
    destruct Hrest as [|[rest' [= -> ->]]]; [done|].
    destruct (plus && bool_decide (g' = "")) eqn:Hp; [done|].
    intros [= ->]. exists rest'. split; [|done].
    rewrite Hs at 1. by rewrite Hd, append_assoc. }
  induction line as [|c line IH]; rewrite re_search_unfold.
  - destruct (match_here plus prefix "") eqn:Hm; [|done].
    intros [= ->]. destruct (Hhere _ Hm) as (post & Heq & ?).
    by exists "", post.
  - destruct (match_here plus prefix (String c line)) eqn:Hm.
    + intros [= ->]. destruct (Hhere _ Hm) as (post & Heq & ?).
      by exists "", post.
    + intros H. destruct (IH H) as (pre & post & -> & ?).
      by exists (String c pre), post.
Qed.

(** On a line with two quotes the match is the text between them. *)
Lemma two_quotes_unique (pre v post pre' g post' : string) :
  has_char QUOTE pre = false → has_char QUOTE v = false →
  has_char QUOTE post = false → has_char QUOTE g = false →
  pre +:+ String QUOTE (v +:+ String QUOTE post)
  = pre' +:+ String QUOTE (g +:+ String QUOTE post') →
  g = v.
Proof.
  intros Hpre Hv Hpost Hg Heq.
  apply (f_equal (split QUOTE)) in Heq.
  rewrite (split_app _ _ _ Hpre), (split_app _ _ _ Hv) in Heq.
  rewrite split_app_lines, (split_app _ _ _ Hg) in Heq.
  pose proof (split_not_nil QUOTE pre') as H1.
  pose proof (split_not_nil QUOTE post') as H2.
  assert (split QUOTE post = [post]) as Hp.
  { clear -Hpost. induction post as [|c post IH]; [done|]. simpl in *.
    apply orb_false_iff in Hpost as [-> Hpost]. by rewrite (IH Hpost). }
  rewrite Hp in Heq.
  destruct (split QUOTE pre') as [|x [|y xs]]; [done| |].
  - by simplify_eq/=.
  - destruct (split QUOTE post') as [|z zs]; [done|].
    simplify_eq/=. destruct xs as [|? [|? ?]]; simplify_eq/=.
Qed.

End Quoted.

Section QuotedLine.
Import Py Spec.

Lemma quoted_line_eq (pre field v post : string) :
  quoted_line pre field v post
  = pre +:+ ((field +:+ ": ") +:+ String QUOTE "") +:+ v +:+ String QUOTE post.
Proof. unfold quoted_line. by rewrite !append_assoc. Qed.

Lemma quoted_line_quotes (pre field v post : string) :
  quoted_line pre field v post
  = (pre +:+ field +:+ ": ") +:+ String QUOTE (v +:+ String QUOTE post).
Proof. unfold quoted_line. by rewrite !append_assoc. Qed.

Lemma contains_prefix (sub pre post : string) :
  contains sub (pre +:+ sub +:+ post) = true.
Proof.
  apply contains_app_r.
  assert (∀ s, startswith s sub = true → contains sub s = true) as H.
  { intros s Hs. destruct s; cbn [contains]; by rewrite Hs. }
  apply H, startswith_app.
Qed.

Lemma contains_field (pre field v post : string) :
  contains (field +:+ ":") (quoted_line pre field v post) = true.
Proof.
  unfold quoted_line.
  replace (field +:+ ": '" +:+ v +:+ "'" +:+ post)
    with ((field +:+ ":") +:+ " '" +:+ v +:+ "'" +:+ post)
    by by rewrite !append_assoc.
  apply contains_prefix.
Qed.

Lemma after_first_quote_app (pre rest : string) :
  has_char QUOTE pre = false →
  after_first_quote (pre +:+ String QUOTE rest) = Some rest.
Proof.
  induction pre as [|c pre IH]; intros H; [done|].
  simpl in H. apply orb_false_iff in H as [Hc H].
  rewrite append_cons. simpl. unfold is_quote. by rewrite Hc, (IH H).
Qed.

Lemma before_last_quote_none (post : string) :
  has_char QUOTE post = false → before_last_quote post = None.
Proof.
  induction post as [|c post IH]; intros H; [done|].
  simpl in H. apply orb_false_iff in H as [Hc H].
  simpl. unfold is_quote. by rewrite (IH H), Hc.
Qed.

Lemma before_last_quote_app (v post : string) :
  has_char QUOTE post = false →
  before_last_quote (v +:+ String QUOTE post) = Some v.
Proof.
  intros H. induction v as [|c v IH].
  - rewrite append_nil_l. simpl. by rewrite (before_last_quote_none _ H).
  - rewrite append_cons. simpl. by rewrite IH.
Qed.

(** The search on a line with two quotes. *)
Lemma re_search_quoted_line (plus : bool) (field pre v post : string) :
  has_char QUOTE field = false → has_char QUOTE pre = false →
  has_char QUOTE v = false → has_char QUOTE post = false →
  re_search plus (field +:+ ": ") (quoted_line pre field v post)
  = if plus && bool_decide (v = "") then None else Some v.
Proof.
  intros Hf Hpre Hv Hpost.
  assert (has_char QUOTE (pre +:+ field +:+ ": ") = false) as Hhead.
  { by rewrite !has_char_app, Hf, Hpre. }
  assert (∀ g, re_search plus (field +:+ ": ") (quoted_line pre field v post)
               = Some g → g = v ∧ plus && bool_decide (v = "") = false)
    as Hunique.
  { intros g Hg.
    apply re_search_sound in Hg as (pre' & post' & Heq & Hg & Hplus).
    rewrite quoted_line_quotes in Heq.
    replace (pre' +:+ ((field +:+ ": ") +:+ String QUOTE "")
             +:+ g +:+ String QUOTE post')
      with ((pre' +:+ field +:+ ": ")
            +:+ String QUOTE (g +:+ String QUOTE post')) in Heq
      by by rewrite !append_assoc.
    pose proof (two_quotes_unique _ _ _ _ _ _ Hhead Hv Hpost Hg Heq) as ->.
    done. }
  destruct (plus && bool_decide (v = "")) eqn:Hplus.
  - destruct (re_search plus _ _) as [g|] eqn:Hg; [|done].
    by destruct (Hunique g eq_refl).
  - destruct (re_search_complete plus (field +:+ ": ") pre v post Hv Hplus)
      as [g Hg].
    rewrite <- quoted_line_eq in Hg. rewrite Hg.
    by destruct (Hunique g Hg) as [-> _].
Qed.

(** C4, as the claim states it, fails twice.  On [Examples.quote_inside]
    the value stops at the next quote, not at the last quote of the line;
    and the patterns of [extract_property_classes] ask for one character
    at least, so the empty quoted value of [Examples.empty_class] is no
    match and nothing is extracted. *)
Lemma quoted_value_counterexample :
  re_search false "var_cond: " Examples.quote_inside
  ≠ between_quotes Examples.quote_inside
  ∧ re_search true "prop_class: " Examples.empty_class ≠ Some "".
Proof. by vm_compute. Qed.

(** C4 (amended): on a field line whose two delimiting quotes are the only
    quotes of the line, the tokenizer returns the text strictly between
    the first and the last quote.  With the starred pattern of
    [extract_price_data] an empty quoted value yields the empty string and
    is stored under the field name; with the pattern of
    [extract_property_classes], which asks for one character at least, an
    empty quoted value yields no match and the set of classes is
    unchanged. *)
Theorem quoted_value_between_quotes (field pre v post : string) :
  has_char QUOTE field = false → has_char QUOTE pre = false →
  has_char QUOTE v = false → has_char QUOTE post = false →
  between_quotes (quoted_line pre field v post) = Some v
  ∧ re_search false (field +:+ ": ") (quoted_line pre field v post) = Some v
  ∧ re_search true (field +:+ ": ") (quoted_line pre field v post)
    = (if bool_decide (v = "") then None else Some v)
  ∧ (∀ current_price : record,
       Compare.price_field (quoted_line pre field v post) current_price field
       = <[field := v]> current_price)
  ∧ (∀ classes : gset string,
       Framery.property_class_line classes
         (quoted_line pre "prop_class" v post)
       = if bool_decide (v = "") then classes else classes ∪ {[v]}).
Proof.
  intros Hf Hpre Hv Hpost.
  pose proof (re_search_quoted_line false _ _ _ _ Hf Hpre Hv Hpost) as Hstar.
  pose proof (re_search_quoted_line true _ _ _ _ Hf Hpre Hv Hpost) as Hplus.
  pose proof (re_search_quoted_line true "prop_class" _ _ _
                eq_refl Hpre Hv Hpost) as Hclass.
  simpl in Hstar, Hplus, Hclass. split_and!.
  - unfold between_quotes. rewrite quoted_line_quotes.
    rewrite after_first_quote_app by by rewrite !has_char_app, Hf, Hpre.
    simpl. by apply before_last_quote_app.
  - exact Hstar.
  - exact Hplus.
  - intros cur. unfold Compare.price_field.
    by rewrite contains_field, Hstar.
  - intros classes. unfold Framery.property_class_line.
    pose proof (contains_field pre "prop_class" v post) as Hc.
    change ("prop_class" +:+ ":") with "prop_class:" in Hc.
    change ("prop_class" +:+ ": ") with "prop_class: " in Hclass.
    rewrite Hc, Hclass. by case_bool_decide.
Qed.

Lemma quoted_value_between_quotes_witness :
  has_char QUOTE "var_cond" = false ∧ has_char QUOTE "  " = false
  ∧ has_char QUOTE "" = false ∧ has_char QUOTE " " = false
  ∧ between_quotes (quoted_line "  " "var_cond" "" " ") = Some ""
  ∧ re_search false ("var_cond" +:+ ": ") (quoted_line "  " "var_cond" "" " ")
    = Some ""
  ∧ re_search true ("var_cond" +:+ ": ") (quoted_line "  " "var_cond" "" " ")
    = (if bool_decide ("" = "") then None else Some "")
  ∧ (∀ current_price : record,
       Compare.price_field (quoted_line "  " "var_cond" "" " ")
         current_price "var_cond"
       = <["var_cond" := ""]> current_price)
  ∧ (∀ classes : gset string,
       Framery.property_class_line classes
         (quoted_line "  " "prop_class" "" " ")
       = if bool_decide ("" = "") then classes else classes ∪ {[""]}).
Proof.
  do 4 (split; [reflexivity|]).
  apply (quoted_value_between_quotes "var_cond" "  " "" " "); reflexivity.
Defined.

End QuotedLine.

(** ** Where the fields of an emitted record come from *)

Section Projection.
Import Spec Tokens.

(** A field of an emitted record was in the accumulator or is the value
    of a field token. *)
Lemma assemble_from_fields (acc : record) (ts : list token)
      (r : record) (k v : string) :
  r ∈ assemble_from acc ts → r !! k = Some v →
  acc !! k = Some v ∨ Field k v ∈ ts.
Proof.
  revert acc. induction ts as [|t ts IH]; intros acc Hr Hk; simpl in Hr.
  - destruct (truthy acc); [|by apply elem_of_nil in Hr].
    apply list_elem_of_singleton in Hr as ->. by left.
  - destruct t as [|name value|].
    + apply elem_of_app in Hr as [Hr|Hr].
      * destruct (truthy acc); [|by apply elem_of_nil in Hr].
        apply list_elem_of_singleton in Hr as ->. by left.
      * destruct (IH _ Hr Hk) as [H|H]; [by rewrite lookup_empty in H|].
        right. by apply elem_of_cons; right.
    + destruct (IH _ Hr Hk) as [H|H].
      * destruct (decide (name = k)) as [->|Hne].
        -- rewrite lookup_insert_eq in H. injection H as ->.
           right. apply elem_of_cons. by left.
        -- rewrite lookup_insert_ne in H by done. by left.
      * right. by apply elem_of_cons; right.
    + destruct (IH _ Hr Hk) as [H|H]; [by left|].
      right. by apply elem_of_cons; right.
Qed.

Lemma price_data_token_field (line k v : string) :
  Field k v ∈ price_data_tokens line →
  k ∈ Compare.FIELDS ∧ Py.re_search false (k +:+ ": ") line = Some v.
Proof.
  unfold price_data_tokens.
  destruct (Py.startswith line "Record").
  - intros H. apply list_elem_of_singleton in H. done.
  - intros H. apply list_elem_of_fmap in H as (f & Hf & Hin).
    unfold quoted_field in Hf.
    destruct (Py.contains (f +:+ ":") line); [|done].
    destruct (Py.re_search false (f +:+ ": ") line) as [g|] eqn:Hg; [|done].
    by injection Hf as -> ->.
Qed.

Lemma dom_sample (article_nr var_cond price : Investigation.pyval) :
  dom (Investigation.sample article_nr var_cond price)
  = ({["article_nr"; "var_cond"; "price"]} : gset string).
Proof.
  unfold Investigation.sample. rewrite !dom_insert_L, dom_empty_L.
  set_solver.
Qed.

End Projection.

(** ** The sharing check (C5, C9) *)

Section Sharing.
Import Framery.

Lemma sharing_verdict_cons (d : string * series_data)
      (ds : list (string * series_data)) :
  sharing_verdict (d :: ds)
  = Ok (Some (if forallb (λ data, bool_decide (class_set data = class_set d.2))
                     (map snd (d :: ds))
              then Shared else SeriesSpecific)).
Proof. reflexivity. Qed.

Lemma all_equal_spec (sets : list (gset string)) :
  Spec.all_equal sets = true ↔ ∀ A B, A ∈ sets → B ∈ sets → A = B.
Proof.
  unfold Spec.all_equal. rewrite forallb_forall. split.
  - intros H A B HA HB. apply list_elem_of_In in HA, HB.
    specialize (H A HA). rewrite forallb_forall in H.
    specialize (H B HB). by apply bool_decide_eq_true in H.
  - intros H A HA. apply forallb_forall. intros B HB.
    apply bool_decide_eq_true_2, H; by apply list_elem_of_In.
Qed.

(** Comparing every set with the first one decides whether all are
    equal. *)
Lemma first_decides (A : gset string) (sets : list (gset string)) :
  forallb (λ B, bool_decide (B = A)) (A :: sets) = Spec.all_equal (A :: sets).
Proof.
  apply eq_true_iff_eq. rewrite all_equal_spec, forallb_forall. split.
  - intros H B C HB HC. apply list_elem_of_In in HB, HC.
    apply H in HB, HC. apply bool_decide_eq_true in HB, HC. congruence.
  - intros H B HB. apply bool_decide_eq_true_2.
    apply H; [by apply list_elem_of_In|]. apply elem_of_cons. by left.
Qed.

Lemma forallb_class_sets (A : gset string)
      (ds : list (string * series_data)) :
  forallb (λ data, bool_decide (class_set data = A)) (map snd ds)
  = forallb (λ B, bool_decide (B = A)) (map (λ d, class_set d.2) ds).
Proof. induction ds as [|d ds IH]; simpl; by rewrite ?IH. Qed.

(** The verdict is a function of the sets of classes. *)
Lemma sharing_verdict_sets (d : string * series_data)
      (ds : list (string * series_data)) :
  sharing_verdict (d :: ds)
  = Ok (Some (if Spec.all_equal (map (λ d, class_set d.2) (d :: ds))
              then Shared else SeriesSpecific)).
Proof.
  rewrite sharing_verdict_cons, forallb_class_sets.
  change (map (λ d : string * series_data, class_set d.2) (d :: ds))
    with (class_set d.2
            :: map (λ d : string * series_data, class_set d.2) ds).
  by rewrite first_decides.
Qed.

(** C5: for two or more series the verdict is Shared exactly when all
    the sets of property classes are equal, and SeriesSpecific otherwise.
    Nothing else enters the verdict: renaming the series, which changes
    what the containment checks of the comparison script print, leaves it
    unchanged. *)
Theorem sharing_is_set_equality (d1 d2 : string * series_data)
        (rest : list (string * series_data)) (rename : string → string) :
  sharing_verdict (d1 :: d2 :: rest)
  = Ok (Some (if Spec.all_equal
                   (map (λ d, class_set d.2) (d1 :: d2 :: rest))
              then Shared else SeriesSpecific))
  ∧ sharing_verdict (map (λ d, (rename d.1, d.2)) (d1 :: d2 :: rest))
    = sharing_verdict (d1 :: d2 :: rest).
Proof.
  split; [apply sharing_verdict_sets|].
  change (map (λ d : string * series_data, (rename d.1, d.2))
              (d1 :: d2 :: rest))
    with ((rename d1.1, d1.2)
            :: map (λ d : string * series_data, (rename d.1, d.2))
                   (d2 :: rest)).
  rewrite !sharing_verdict_sets. do 3 f_equal.
  change (map (λ d : string * series_data, class_set d.2)
              ((rename d1.1, d1.2)
                 :: map (λ d : string * series_data, (rename d.1, d.2))
                        (d2 :: rest)))
    with (map (λ d : string * series_data, class_set d.2)
              (map (λ d : string * series_data, (rename d.1, d.2))
                   (d1 :: d2 :: rest))).
  by rewrite map_map.
Qed.

(** C9: the verdict on two series is symmetric, it is Shared for a series
    set against itself (empty or not), and it decides the equality of the
    two sets. *)
Theorem sharing_symmetric_reflexive (n1 n2 : string) (a b : series_data) :
  sharing_verdict [(n1, a); (n2, b)] = sharing_verdict [(n2, b); (n1, a)]
  ∧ sharing_verdict [(n1, a); (n2, a)] = Ok (Some Shared)
  ∧ sharing_verdict [(n1, a); (n2, b)]
    = Ok (Some (if bool_decide (class_set a = class_set b)
                then Shared else SeriesSpecific)).
Proof.
  rewrite !sharing_verdict_cons. simpl.
  rewrite !(bool_decide_eq_true_2 (class_set a = class_set a)) by done.
  rewrite !(bool_decide_eq_true_2 (class_set b = class_set b)) by done.
  simpl. rewrite !andb_true_r.
  assert (bool_decide (class_set b = class_set a)
          = bool_decide (class_set a = class_set b)) as ->
    by (apply bool_decide_ext; naive_solver).
  done.
Qed.

(** The classes that [extract_property_classes] returns are the values
    matched on the lines of the dump, in ascending order, and as a set
    they are the set that the loop collected. *)
Lemma foldl_property_class_line (lines : list string) (acc : gset string)
      (c : string) :
  c ∈ foldl property_class_line acc lines
  ↔ c ∈ acc
    ∨ ∃ line, line ∈ lines ∧ Py.contains "prop_class:" line = true
              ∧ Py.re_search true "prop_class: " line = Some c.
Proof.
  revert acc. induction lines as [|l lines IH]; intros acc; simpl.
  - split; [by left|]. intros [H|(line & H & _)]; [done|].
    by apply elem_of_nil in H.
  - rewrite IH. unfold property_class_line. split.
    + intros [H|(line & Hin & Hc & Hm)].
      * destruct (Py.contains "prop_class:" l) eqn:Hc; [|by left].
        destruct (Py.re_search true "prop_class: " l) as [g|] eqn:Hm;
          [|by left].
        apply elem_of_union in H as [H|H]; [by left|].
        apply elem_of_singleton in H as ->. right. exists l.
        split; [apply elem_of_cons; by left|done].
      * right. exists line. split; [apply elem_of_cons; by right|done].
    + intros [H|(line & Hin & Hc & Hm)].
      * left. destruct (Py.contains "prop_class:" l); [|done].
        destruct (Py.re_search true "prop_class: " l); [|done].
        apply elem_of_union. by left.
      * apply elem_of_cons in Hin as [->|Hin].
        -- left. rewrite Hc, Hm. apply elem_of_union. right.
           by apply elem_of_singleton.
        -- right. by exists line.
Qed.

Lemma extract_property_classes_spec (output c : string) :
  Sorted String.le (extract_property_classes output)
  ∧ (c ∈ extract_property_classes output
     ↔ ∃ line, line ∈ Py.split Py.NL output
               ∧ Py.contains "prop_class:" line = true
               ∧ Py.re_search true "prop_class: " line = Some c).
Proof.
  unfold extract_property_classes, sorted. split.
  - apply (Sorted_merge_sort String.le).
  - rewrite (merge_sort_Permutation String.le), elem_of_elements.
    rewrite foldl_property_class_line. split; [|by right].
    intros [H|H]; [|done]. by apply not_elem_of_empty in H.
Qed.

(** The scenarios of the specification. *)
Example framery_series_shared :
  sharing_verdict [Examples.framery_one; Examples.framery_2q]
  = Ok (Some Shared).
Proof. by vm_compute. Qed.

Example fast_series_specific :
  sharing_verdict [Examples.fast_kr; Examples.fast_wkm]
  = Ok (Some SeriesSpecific).
Proof. by vm_compute. Qed.

(** The containment check differs between the two FAST series names and
    the Framery ones; the verdicts above do not consult it. *)
Example containment_is_a_diagnostic :
  Compare.contains_exact "KR" (property_classes Examples.fast_kr.2) = true
  ∧ Compare.contains_lower "frmr_one"
      (property_classes Examples.framery_one.2) = false.
Proof. by vm_compute. Qed.

End Sharing.

(** ** The text path and the JSON path on one row (C3) *)

Section Paths.
Import Py Spec Tokens Investigation.

Lemma split_no_sep (sep : ascii) (s : string) :
  has_char sep s = false → split sep s = [s].
Proof.
  induction s as [|c s IH]; intros H; [done|]. simpl in *.
  apply orb_false_iff in H as [-> H]. by rewrite (IH H).
Qed.

Lemma split_join (sep : ascii) (ls : list string) :
  ls ≠ [] → Forall (λ l, has_char sep l = false) ls →
  split sep (join sep ls) = ls.
Proof.
  intros Hne Hls. induction Hls as [|l ls Hl Hls IH]; [done|].
  destruct ls as [|l' ls].
  - by apply split_no_sep.
  - rewrite join_cons by done. rewrite (split_app _ _ _ Hl).
    by rewrite IH.
Qed.

Lemma cut_app (sep : ascii) (k rest : string) :
  has_char sep k = false → cut sep (k +:+ String sep rest) = Some (k, rest).
Proof.
  induction k as [|c k IH]; intros H.
  - rewrite append_nil_l. simpl. by rewrite Ascii.eqb_refl.
  - simpl in H. apply orb_false_iff in H as [Hc H].
    rewrite append_cons. simpl. by rewrite Hc, (IH H).
Qed.

Lemma rstrip_chars_snoc (P : ascii → bool) (s : string) (c : ascii) :
  rstrip_chars P (s +:+ String c "")
  = if P c then rstrip_chars P s else s +:+ String c "".
Proof.
  induction s as [|a s IH].
  - rewrite append_nil_l. simpl. by destruct (P c).
  - rewrite append_cons. simpl. rewrite IH. destruct (P c); [done|].
    destruct (s +:+ String c "") eqn:Hs; [|done].
    destruct s; by rewrite ?append_cons in Hs.
Qed.

(** The quotes around a text are stripped with the quotes of the text. *)
Lemma strip_quotes_quoted (v : string) :
  strip_quotes (String QUOTE (v +:+ String QUOTE "")) = strip_quotes v.
Proof.
  unfold strip_quotes, strip_chars.
  cbn [rstrip_chars]. rewrite rstrip_chars_snoc.
  change (is_quote QUOTE) with true. cbv iota.
  by destruct (rstrip_chars is_quote v).
Qed.

(** The blank after the colon is stripped, the quotes stay. *)
Lemma strip_blank_quoted (v : string) :
  strip (String " " (String QUOTE (v +:+ String QUOTE "")))
  = String QUOTE (v +:+ String QUOTE "").
Proof.
  unfold strip, strip_chars.
  change (String " " (String QUOTE (v +:+ String QUOTE "")))
    with ((String " " (String QUOTE v)) +:+ String QUOTE "").
  rewrite rstrip_chars_snoc. by change (isspace QUOTE) with false.
Qed.

Lemma well_formed_inv (render : pyval → string) (kv : string * pyval) :
  Row.well_formed render kv = true →
  has_char NL (Row.field_line kv.1 (render kv.2)) = false
  ∧ contains Pricing.MARKER (Row.field_line kv.1 (render kv.2)) = false
  ∧ startswith (Row.field_line kv.1 (render kv.2)) "Record " = false
  ∧ startswith (strip (Row.field_line kv.1 (render kv.2))) "Table:" = false
  ∧ has_char COLON kv.1 = false
  ∧ strip kv.1 = kv.1
  ∧ strip_quotes (render kv.2) = render kv.2.
Proof.
  unfold Row.well_formed. rewrite !andb_true_iff, !negb_true_iff.
  rewrite !bool_decide_eq_true. tauto.
Qed.

(** The token of a well-formed field line. *)
Lemma price_token_field_line (render : pyval → string)
      (kv : string * pyval) :
  Row.well_formed render kv = true →
  price_token (Row.field_line kv.1 (render kv.2)) = Field kv.1 (render kv.2).
Proof.
  intros Hwf.
  apply well_formed_inv in Hwf as (_ & _ & Hrec & Htab & Hcolon & Hk & Hv).
  unfold price_token. rewrite Hrec, Htab.
  assert (contains ":" (Row.field_line kv.1 (render kv.2)) = true) as ->.
  { unfold Row.field_line. apply contains_app_r.
    apply (contains_prefix ":" "" (" '" +:+ render kv.2 +:+ "'")). }
  simpl andb. cbv iota.
  change (Row.field_line kv.1 (render kv.2))
    with (kv.1 +:+ String COLON (String " " (String QUOTE
            (render kv.2 +:+ String QUOTE "")))).
  rewrite (cut_app _ _ _ Hcolon).
  by rewrite Hk, strip_blank_quoted, strip_quotes_quoted, Hv.
Qed.

Lemma price_tokens_field_lines (render : pyval → string)
      (row : list (string * pyval)) :
  forallb (Row.well_formed render) row = true →
  price_tokens true (map (λ kv, Row.field_line kv.1 (render kv.2)) row)
  = map (λ kv, Field kv.1 (render kv.2)) row.
Proof.
  induction row as [|kv row IH]; intros H; [done|].
  simpl in H. apply andb_true_iff in H as [Hkv H]. simpl.
  rewrite (price_token_field_line _ _ Hkv), (IH H).
  by apply well_formed_inv in Hkv as (_ & -> & _).
Qed.

Lemma assemble_from_fields_only (render : pyval → string)
      (row : list (string * pyval)) (acc : record) :
  assemble_from acc (map (λ kv, Field kv.1 (render kv.2)) row)
  = append_if_truthy []
      (foldl (λ m kv, <[kv.1 := render kv.2]> m) acc row).
Proof.
  revert acc. induction row as [|kv row IH]; intros acc; simpl; [done|].
  apply IH.
Qed.

Lemma foldl_insert_fmap (render : pyval → string)
      (row : list (string * pyval)) (acc : jrecord) :
  foldl (λ (m : record) kv, <[kv.1 := render kv.2]> m) (render <$> acc) row
  = render <$> foldl (λ (m : jrecord) kv, <[kv.1 := kv.2]> m) acc row.
Proof.
  revert acc. induction row as [|kv row IH]; intros acc; simpl; [done|].
  by rewrite <- IH, fmap_insert.
Qed.

(** The text path, on the dump of a row behind a line with the marker,
    reads the rendering of the decoded object. *)
Lemma parse_dump (render : pyval → string) (banner : string)
      (row : list (string * pyval)) :
  Py.contains Pricing.MARKER banner = true →
  Py.has_char Py.NL banner = false →
  forallb (Row.well_formed render) row = true →
  Pricing.parse_price_records (banner +:+ String Py.NL (Row.dump render row))
  = Ok (append_if_truthy [] (render <$> Row.json row)).
Proof.
  intros Hmarker Hline Hwf. rewrite parse_price_records_assemble.
  rewrite (split_app _ _ _ Hline). unfold Row.dump.
  rewrite split_join; [|done|].
  2:{ constructor; [done|].
      apply Forall_forall. intros l Hl.
      apply list_elem_of_fmap in Hl as (kv & -> & Hkv).
      rewrite forallb_forall in Hwf.
      apply list_elem_of_In, Hwf, well_formed_inv in Hkv. tauto. }
  cbn [price_tokens]. rewrite Hmarker.
  change (Py.contains Pricing.MARKER "Record 1") with false.
  change (price_token "Record 1") with Boundary. cbv iota.
  rewrite (price_tokens_field_lines _ _ Hwf). unfold assemble. simpl.
  rewrite truthy_empty. simpl.
  rewrite assemble_from_fields_only. unfold Row.json.
  by rewrite <- foldl_insert_fmap, fmap_empty.
Qed.

Lemma json_snoc (row : list (string * pyval)) (kv : string * pyval) :
  Row.json (row ++ [kv]) = <[kv.1 := kv.2]> (Row.json row).
Proof. unfold Row.json. by rewrite foldl_app. Qed.

Lemma truthy_json (render : pyval → string) (row : list (string * pyval)) :
  row ≠ [] → truthy (render <$> Row.json row) = true.
Proof.
  destruct row as [|kv row _] using rev_ind; [done|]. intros _.
  rewrite json_snoc, fmap_insert. apply truthy_insert.
Qed.

End Paths.

Section PathsAgree.
Import Investigation.

(** C3, as the claim states it, fails, and each restriction of the
    amended statement is needed.  The JSON path does not stringify: for
    [Examples.price_row] the decoded object and the sample built from it
    hold the number 100 under price, the text path holds the text 100,
    and a number is equal to no string.  The classifiers do not behave
    identically: the JSON path reads the key level and counts the row as
    a base price, the text path reads the key price_level, which the row
    does not have, and counts the record as neither a base price nor a
    surcharge.  Without a line with the marker the text path reads no
    record at all.  And a row of strings whose field line holds a line
    break or the marker, looks like a boundary or a banner, or whose name
    has a colon or a blank in front, or whose value has a quote in
    front, is not read back as the decoded object. *)
Lemma number_is_not_stringified :
  (Row.json Examples.price_row !! "price" = Some (PInt 100)
   ∧ (∃ s, base_prices (scan_prices (Some [Row.json Examples.price_row]))
           = [s]
           ∧ s !! "price" = Some (PInt 100))
   ∧ (∃ p, Pricing.parse_price_records
             (Examples.marker_line
              +:+ String Py.NL (Row.dump Examples.render Examples.price_row))
           = Ok [p]
           ∧ p !! "price" = Some "100")
   ∧ py_eq (PInt 100) (PStr "100") = false)
  ∧ (forallb (Row.well_formed Examples.render) Examples.price_row = true
     ∧ level_is "B" (Row.json Examples.price_row) = true
     ∧ base_count (scan_prices (Some [Row.json Examples.price_row])) = 1
     ∧ ∃ p r, Pricing.parse_price_records
                (Examples.marker_line
                 +:+ String Py.NL
                       (Row.dump Examples.render Examples.price_row))
              = Ok [p]
              ∧ Pricing.level p = None
              ∧ Pricing.analyze_manufacturer "framery"
                  (Examples.marker_line
                   +:+ String Py.NL
                         (Row.dump Examples.render Examples.price_row))
                = Ok r
              ∧ Pricing.base r = 0 ∧ Pricing.surcharges r = 0
              ∧ Pricing.corrupt r = 1)
  ∧ Pricing.parse_price_records
      (Row.dump Examples.render Examples.price_row) = Ok []
  ∧ Forall (λ row,
              forallb (Row.well_formed Examples.render) row = false
              ∧ Pricing.parse_price_records
                  (Examples.marker_line
                   +:+ String Py.NL (Row.dump Examples.render row))
                ≠ Ok [Examples.render <$> Row.json row])
           [Examples.row_with_break; Examples.row_with_marker;
            Examples.row_like_boundary; Examples.row_like_banner;
            Examples.row_with_colon; Examples.row_with_blank;
            Examples.row_with_quote].
Proof.
  split_and!.
  - by vm_compute.
  - eexists. split; [reflexivity|]. by vm_compute.
  - eexists. split; [by vm_compute|]. by vm_compute.
  - done.
  - by vm_compute.
  - by vm_compute.
  - by vm_compute.
  - eexists _, _. split_and!; [by vm_compute|by vm_compute|by vm_compute|..];
      by vm_compute.
  - by vm_compute.
  - repeat (constructor; [split; [by vm_compute|vm_compute; congruence]|]).
    constructor.
Qed.

(** C3 (amended): take any logical row that the text format can carry
    and its text dump behind a line that holds the marker of the price
    table.  The text path reads from it one record, which holds under
    every field name the text of the value that the decoded JSON object
    holds there: for a JSON string that very string, for a number, a
    boolean or null whatever the dump tool wrote, while the JSON path
    keeps the value as decoded and stringifies nothing.  The classifier
    of the JSON path answers yes for a literal exactly when the object
    holds that string under level; the classifier of the text path
    compares the text under price_level.  On a row that holds the same
    string under both keys the two classifiers give the same answer for
    every literal. *)
Theorem text_and_json_projections (render : pyval → string)
        (banner : string) (row : list (string * pyval)) :
  (∀ s, render (PStr s) = s) →
  Py.contains Pricing.MARKER banner = true →
  Py.has_char Py.NL banner = false →
  forallb (Row.well_formed render) row = true →
  Pricing.parse_price_records (banner +:+ String Py.NL (Row.dump render row))
  = Ok (append_if_truthy [] (render <$> Row.json row))
  ∧ (row ≠ [] →
     Pricing.parse_price_records
       (banner +:+ String Py.NL (Row.dump render row))
     = Ok [render <$> Row.json row])
  ∧ (∀ f, (render <$> Row.json row) !! f
          = match Row.json row !! f with
            | Some (PStr s) => Some s
            | Some v => Some (render v)
            | None => None
            end)
  ∧ (∀ l, l ≠ "" →
          level_is l (Row.json row)
          = bool_decide (Row.json row !! "level" = Some (PStr l)))
  ∧ Pricing.level (render <$> Row.json row)
    = render <$> Row.json row !! "price_level"
  ∧ (∀ l s, Row.json row !! "level" = Some (PStr s) →
            Row.json row !! "price_level" = Some (PStr s) →
            level_is l (Row.json row)
            = bool_decide (Pricing.level (render <$> Row.json row)
                           = Some l)).
Proof.
  intros Hstr Hmarker Hline Hwf. split_and!.
  - by apply parse_dump.
  - intros Hrow. rewrite parse_dump by done. unfold append_if_truthy.
    by rewrite truthy_json.
  - intros f. rewrite lookup_fmap.
    destruct (Row.json row !! f) as [[s|n|b|]|]; simpl; by rewrite ?Hstr.
  - intros l Hl. unfold level_is.
    destruct (Row.json row !! "level") as [[s|n|b|]|]; simpl.
    + apply bool_decide_ext. split; [by intros ->|by intros [= ->]].
    + done.
    + done.
    + done.
    + rewrite bool_decide_eq_false_2; [done|]. by intros <-.
  - unfold Pricing.level. by rewrite lookup_fmap.
  - intros l s Hlevel Hprice. unfold level_is, Pricing.level.
    rewrite lookup_fmap, Hlevel, Hprice. simpl. rewrite Hstr.
    apply bool_decide_ext. split; [by intros ->|by intros [= ->]].
Qed.

Lemma text_and_json_projections_witness :
  (∀ s, Examples.render (PStr s) = s)
  ∧ Py.contains Pricing.MARKER Examples.marker_line = true
  ∧ Py.has_char Py.NL Examples.marker_line = false
  ∧ forallb (Row.well_formed Examples.render) Examples.two_key_row = true
  ∧ Pricing.parse_price_records
      (Examples.marker_line
       +:+ String Py.NL (Row.dump Examples.render Examples.two_key_row))
    = Ok [Examples.render <$> Row.json Examples.two_key_row]
  ∧ level_is "B" (Row.json Examples.two_key_row)
    = bool_decide (Pricing.level
                     (Examples.render <$> Row.json Examples.two_key_row)
                   = Some "B").
Proof.
  pose proof (text_and_json_projections
                Examples.render Examples.marker_line Examples.two_key_row
                (λ s, eq_refl) eq_refl eq_refl eq_refl)
    as (_ & Hone & _ & _ & _ & Hsame).
  split; [intros s; reflexivity|]. split; [reflexivity|].
  split; [reflexivity|]. split; [reflexivity|]. split.
  - apply Hone. discriminate.
  - apply (Hsame "B" "B"); vm_compute; reflexivity.
Defined.

End PathsAgree.

(** * Further properties of the scripts *)

(** ** The other two record loops *)

Section MoreLoops.
Import Spec Tokens.

Lemma mapping_line_token (st : Framery.mapping_state) (line : string) :
  mapping_view (Framery.mapping_line st line)
  = foldl step (mapping_view st) [mapping_token line].
Proof.
  unfold Framery.mapping_line, mapping_token, quoted_field. simpl.
  destruct (Py.startswith line "Record"); [done|].
  change ("article_nr" +:+ ":") with "article_nr:".
  change ("article_nr" +:+ ": ") with "article_nr: ".
  change ("prop_class" +:+ ":") with "prop_class:".
  change ("prop_class" +:+ ": ") with "prop_class: ".
  destruct (Py.contains "article_nr:" line).
  - by destruct (Py.re_search true "article_nr: " line).
  - destruct (Py.contains "prop_class:" line); [|done].
    by destruct (Py.re_search true "prop_class: " line).
Qed.

Lemma propvalue_line_token (st : Compare.pv_state) (line : string) :
  propvalue_view (Compare.propvalue_line st line)
  = foldl step (propvalue_view st) (propvalue_tokens line).
Proof.
  unfold Compare.propvalue_line, propvalue_tokens.
  destruct (Py.startswith line "Record"); [done|].
  by rewrite price_field_token.
Qed.

Lemma extract_propertyclass_mappings_assemble (output : string) :
  Framery.extract_propertyclass_mappings output
  = assemble (map mapping_token (Py.split Py.NL output)).
Proof.
  unfold Framery.extract_propertyclass_mappings.
  destruct (loop_assemble Framery.mapping_line mapping_view
              (λ l, [mapping_token l]) (Py.split Py.NL output)
              (Framery.MappingState [] ∅) mapping_line_token) as [H _].
  simpl in H. rewrite H. unfold assemble. f_equal.
  apply concat_map_singleton.
Qed.

Lemma extract_propertyvalue_data_assemble (output : string) :
  Compare.extract_propertyvalue_data output
  = assemble (concat (map propvalue_tokens (Py.split Py.NL output))).
Proof.
  unfold Compare.extract_propertyvalue_data.
  destruct (loop_assemble Compare.propvalue_line propvalue_view
              propvalue_tokens (Py.split Py.NL output)
              (Compare.PvState [] ∅) propvalue_line_token) as [H _].
  exact H.
Qed.

(** A field token of a pattern carries the value that the pattern
    matched. *)
Lemma quoted_field_inv (plus : bool) (field line k v : string) :
  quoted_field plus field line = Field k v →
  k = field ∧ Py.re_search plus (field +:+ ": ") line = Some v.
Proof.
  unfold quoted_field. destruct (Py.contains (field +:+ ":") line); [|done].
  destruct (Py.re_search plus (field +:+ ": ") line) as [g|]; [|done].
  by intros [= -> ->].
Qed.

Lemma article_token_inv (line k v : string) :
  article_token line = Field k v →
  k ∈ ["article_nr"; "series"]
  ∧ Py.re_search true (k +:+ ": ") line = Some v.
Proof.
  unfold article_token. destruct (Py.startswith line "Record"); [done|].
  destruct (Py.contains "article_nr:" line);
    intros [-> H]%quoted_field_inv; (split; [|done]); set_solver.
Qed.

Lemma mapping_token_inv (line k v : string) :
  mapping_token line = Field k v →
  k ∈ ["article_nr"; "prop_class"]
  ∧ Py.re_search true (k +:+ ": ") line = Some v.
Proof.
  unfold mapping_token. destruct (Py.startswith line "Record"); [done|].
  destruct (Py.contains "article_nr:" line);
    intros [-> H]%quoted_field_inv; (split; [|done]); set_solver.
Qed.

Lemma propvalue_token_field (line k v : string) :
  Field k v ∈ propvalue_tokens line →
  k ∈ Compare.PV_FIELDS ∧ Py.re_search false (k +:+ ": ") line = Some v.
Proof.
  unfold propvalue_tokens.
  destruct (Py.startswith line "Record").
  - intros H. apply list_elem_of_singleton in H. done.
  - intros H. apply list_elem_of_fmap in H as (f & Hf & Hin).
    symmetry in Hf. by apply quoted_field_inv in Hf as [-> Hf].
Qed.

(** The fields of the records of a loop that reads one token per line. *)
Lemma assemble_map_fields (token_of : string → token) (lines : list string)
      (r : record) (k v : string) :
  r ∈ assemble (map token_of lines) → r !! k = Some v →
  ∃ line, line ∈ lines ∧ token_of line = Field k v.
Proof.
  intros Hr Hk.
  destruct (assemble_from_fields _ _ _ _ _ Hr Hk) as [H|H];
    [by rewrite lookup_empty in H|].
  apply list_elem_of_fmap in H as (line & Hline & Hin). eauto.
Qed.

Lemma assemble_concat_fields (tokens_of : string → list token)
      (lines : list string) (r : record) (k v : string) :
  r ∈ assemble (concat (map tokens_of lines)) → r !! k = Some v →
  ∃ line, line ∈ lines ∧ Field k v ∈ tokens_of line.
Proof.
  intros Hr Hk.
  destruct (assemble_from_fields _ _ _ _ _ Hr Hk) as [H|H];
    [by rewrite lookup_empty in H|].
  apply list_elem_of_In, in_concat in H as (ts & Hts & Hin).
  apply list_elem_of_In in Hts, Hin.
  apply list_elem_of_fmap in Hts as (line & -> & Hline). eauto.
Qed.

End MoreLoops.

(** ** What the extracted records hold *)

Section Extracted.
Import Spec Tokens.

(** X1: a record of [extract_articles] holds only the keys article_nr and
    series, a record of [extract_propertyclass_mappings] only article_nr
    and prop_class; every value is the match of the field's pattern on a
    line of the dump that is no boundary, it is not empty and holds no
    quote. *)
Theorem articles_and_mappings_hold_matches (output : string) :
  (∀ (r : record) (k v : string),
     r ∈ Framery.extract_articles output → r !! k = Some v →
     k ∈ ["article_nr"; "series"] ∧ v ≠ "" ∧ Py.has_char Py.QUOTE v = false
     ∧ ∃ line, line ∈ Py.split Py.NL output
               ∧ Py.startswith line "Record" = false
               ∧ Py.re_search true (k +:+ ": ") line = Some v)
  ∧ (∀ (r : record) (k v : string),
       r ∈ Framery.extract_propertyclass_mappings output → r !! k = Some v →
       k ∈ ["article_nr"; "prop_class"] ∧ v ≠ ""
       ∧ Py.has_char Py.QUOTE v = false
       ∧ ∃ line, line ∈ Py.split Py.NL output
                 ∧ Py.startswith line "Record" = false
                 ∧ Py.re_search true (k +:+ ": ") line = Some v).
Proof.
  assert (∀ prefix line v, Py.re_search true prefix line = Some v →
            v ≠ "" ∧ Py.has_char Py.QUOTE v = false) as Hsound.
  { intros prefix line v (pre & post & _ & Hq & Hne)%re_search_sound.
    split; [|done]. intros ->. done. }
  split; intros r k v Hr Hk.
  - rewrite extract_articles_assemble in Hr.
    destruct (assemble_map_fields _ _ _ _ _ Hr Hk) as (line & Hin & Htok).
    destruct (article_token_inv _ _ _ Htok) as [Hkey Hm].
    destruct (Hsound _ _ _ Hm). split_and!; [done..|].
    exists line. split_and!; [done| |done].
    unfold article_token in Htok. by destruct (Py.startswith line "Record").
  - rewrite extract_propertyclass_mappings_assemble in Hr.
    destruct (assemble_map_fields _ _ _ _ _ Hr Hk) as (line & Hin & Htok).
    destruct (mapping_token_inv _ _ _ Htok) as [Hkey Hm].
    destruct (Hsound _ _ _ Hm). split_and!; [done..|].
    exists line. split_and!; [done| |done].
    unfold mapping_token in Htok. by destruct (Py.startswith line "Record").
Qed.

Lemma articles_and_mappings_hold_matches_witness :
  ({["article_nr" := "A"]} : record)
    ∈ Framery.extract_articles Examples.leading_field
  ∧ "article_nr" ∈ ["article_nr"; "series"] ∧ "A" ≠ ""
  ∧ Py.has_char Py.QUOTE "A" = false
  ∧ ∃ line, line ∈ Py.split Py.NL Examples.leading_field
            ∧ Py.startswith line "Record" = false
            ∧ Py.re_search true ("article_nr" +:+ ": ") line = Some "A".
Proof.
  assert (({["article_nr" := "A"]} : record)
            ∈ Framery.extract_articles Examples.leading_field) as Hin.
  { vm_compute. left. }
  split; [exact Hin|].
  exact (proj1 (articles_and_mappings_hold_matches Examples.leading_field)
               {["article_nr" := "A"]} "article_nr" "A" Hin eq_refl).
Defined.

(** X2: a record of [extract_propertyvalue_data] is never empty and holds
    only the keys prop_class, property and value_from, each with the
    match of the field's pattern on a line of the dump; no value of it,
    and none of [extract_price_data], holds a quote. *)
Theorem property_values_hold_matches (output : string) :
  Forall (λ r, r ≠ ∅) (Compare.extract_propertyvalue_data output)
  ∧ (∀ (r : record) (k v : string),
       r ∈ Compare.extract_propertyvalue_data output → r !! k = Some v →
       k ∈ Compare.PV_FIELDS ∧ Py.has_char Py.QUOTE v = false
       ∧ ∃ line, line ∈ Py.split Py.NL output
                 ∧ Py.re_search false (k +:+ ": ") line = Some v)
  ∧ (∀ (r : record) (k v : string),
       r ∈ Compare.extract_price_data output → r !! k = Some v →
       Py.has_char Py.QUOTE v = false).
Proof.
  split_and!.
  - rewrite extract_propertyvalue_data_assemble. apply assemble_from_nonempty.
  - intros r k v Hr Hk. rewrite extract_propertyvalue_data_assemble in Hr.
    destruct (assemble_concat_fields _ _ _ _ _ Hr Hk) as (line & Hin & Htok).
    destruct (propvalue_token_field _ _ _ Htok) as [Hkey Hm].
    split; [done|]. split; [|eauto].
    by apply re_search_sound in Hm as (pre & post & _ & Hq & _).
  - intros r k v Hr Hk. rewrite extract_price_data_assemble in Hr.
    destruct (assemble_concat_fields _ _ _ _ _ Hr Hk) as (line & Hin & Htok).
    destruct (price_data_token_field _ _ _ Htok) as [_ Hm].
    by apply re_search_sound in Hm as (pre & post & _ & Hq & _).
Qed.

Lemma property_values_hold_matches_witness :
  ({["prop_class" := "MG_GLOBAL"; "property" := "COLOR";
     "value_from" := ""]} : record)
    ∈ Compare.extract_propertyvalue_data Examples.property_values
  ∧ "value_from" ∈ Compare.PV_FIELDS ∧ Py.has_char Py.QUOTE "" = false
  ∧ ∃ line, line ∈ Py.split Py.NL Examples.property_values
            ∧ Py.re_search false ("value_from" +:+ ": ") line = Some "".
Proof.
  assert (({["prop_class" := "MG_GLOBAL"; "property" := "COLOR";
             "value_from" := ""]} : record)
            ∈ Compare.extract_propertyvalue_data Examples.property_values)
    as Hin.
  { vm_compute. left. }
  split; [exact Hin|].
  exact (proj1 (proj2 (property_values_hold_matches Examples.property_values))
               _ "value_from" "" Hin eq_refl).
Defined.

End Extracted.

(** ** Dumps put one after the other *)

Section Concatenation.
Import Spec Tokens.

Lemma assemble_from_app_boundary (acc : record) (ts ts' : list token) :
  assemble_from acc (ts ++ Boundary :: ts')
  = assemble_from acc ts ++ assemble_from ∅ ts'.
Proof.
  revert acc. induction ts as [|t ts IH]; intros acc; simpl; [done|].
  destruct t as [|name value|]; [|apply IH..].
  by rewrite IH, app_assoc.
Qed.

Lemma assemble_boundary (ts : list token) :
  assemble (Boundary :: ts) = assemble ts.
Proof. unfold assemble. simpl. by rewrite truthy_empty. Qed.

Lemma assemble_joined (ts ts' : list token) :
  assemble (ts ++ Boundary :: ts') = assemble ts ++ assemble (Boundary :: ts').
Proof.
  rewrite assemble_boundary. unfold assemble.
  apply assemble_from_app_boundary.
Qed.

(** The first line of a text that starts with a line-free prefix starts
    with it. *)
Lemma split_startswith (p s : string) :
  Py.has_char Py.NL p = false → Py.startswith s p = true →
  ∃ l ls, Py.split Py.NL s = l :: ls ∧ Py.startswith l p = true.
Proof.
  revert s. induction p as [|c p IH]; intros s Hp Hs.
  - pose proof (split_not_nil Py.NL s).
    destruct (Py.split Py.NL s) as [|l ls]; [done|].
    exists l, ls. by rewrite startswith_nil.
  - destruct s as [|b s]; [done|]. simpl in Hp, Hs.
    apply orb_false_iff in Hp as [Hc Hp].
    apply andb_true_iff in Hs as [Hb Hs]. apply Ascii.eqb_eq in Hb as <-.
    destruct (IH s Hp Hs) as (l & ls & Hsplit & Hl).
    exists (String c l), ls. simpl. rewrite Hc, Hsplit. split; [done|].
    by rewrite Ascii.eqb_refl.
Qed.

(** X3: dumps can be put one after the other.  When the second dump
    starts with a boundary line, each of the four regex extractors
    returns for the two dumps joined by a line break the records of the
    first followed by the records of the second. *)
Theorem extractors_of_joined_dumps (a b : string) :
  Py.startswith b "Record" = true →
  Framery.extract_articles (a +:+ String Py.NL b)
  = Framery.extract_articles a ++ Framery.extract_articles b
  ∧ Framery.extract_propertyclass_mappings (a +:+ String Py.NL b)
    = Framery.extract_propertyclass_mappings a
      ++ Framery.extract_propertyclass_mappings b
  ∧ Compare.extract_price_data (a +:+ String Py.NL b)
    = Compare.extract_price_data a ++ Compare.extract_price_data b
  ∧ Compare.extract_propertyvalue_data (a +:+ String Py.NL b)
    = Compare.extract_propertyvalue_data a
      ++ Compare.extract_propertyvalue_data b.
Proof.
  intros Hb.
  destruct (split_startswith "Record" b eq_refl Hb) as (l & ls & Hsplit & Hl).
  assert (article_token l = Boundary) as Ha
    by (unfold article_token; by rewrite Hl).
  assert (mapping_token l = Boundary) as Hm
    by (unfold mapping_token; by rewrite Hl).
  assert (price_data_tokens l = [Boundary]) as Hp
    by (unfold price_data_tokens; by rewrite Hl).
  assert (propvalue_tokens l = [Boundary]) as Hv
    by (unfold propvalue_tokens; by rewrite Hl).
  rewrite !extract_articles_assemble, !extract_propertyclass_mappings_assemble,
    !extract_price_data_assemble, !extract_propertyvalue_data_assemble.
  rewrite split_app_lines, Hsplit, !map_app, concat_app, !map_cons.
  rewrite !concat_cons, Ha, Hm, Hp, Hv. cbn [app].
  split_and!; rewrite ?concat_app, ?concat_cons; cbn [app];
    apply assemble_joined.
Qed.

Lemma extractors_of_joined_dumps_witness :
  Py.startswith Examples.second_articles "Record" = true
  ∧ Framery.extract_articles
      (Examples.leading_field +:+ String Py.NL Examples.second_articles)
    = Framery.extract_articles Examples.leading_field
      ++ Framery.extract_articles Examples.second_articles.
Proof.
  split; [reflexivity|].
  apply (extractors_of_joined_dumps Examples.leading_field
           Examples.second_articles).
  reflexivity.
Defined.

End Concatenation.

(** ** More on the loop of parse_price_records *)

Section PricingLines.
Import Spec Tokens Pricing.

Lemma for_each_app {S A} (body : S → A → result S) (st : S) (l1 l2 : list A) :
  for_each body st (l1 ++ l2)
  = st' ← for_each body st l1; for_each body st' l2.
Proof.
  revert st. induction l1 as [|x l1 IH]; intros st; simpl; [done|].
  destruct (body st x) as [st1|e]; simpl; [apply IH|done].
Qed.

(** A text holds a line-free needle exactly on one of its lines. *)
Lemma contains_in_line (sub s : string) :
  Py.has_char Py.NL sub = false → Py.contains sub s = true →
  ∃ l, l ∈ Py.split Py.NL s ∧ Py.contains sub l = true.
Proof.
  intros Hsub. induction s as [|c s IH]; intros H.
  - exists "". split; [by left|done].
  - cbn [Py.contains] in H. apply orb_true_iff in H as [H|H].
    + destruct (split_startswith _ _ Hsub H) as (l & ls & -> & Hl).
      exists l. split; [by left|]. destruct l; cbn [Py.contains]; by rewrite Hl.
    + destruct (IH H) as (l & Hin & Hl). simpl.
      destruct (Ascii.eqb c Py.NL).
      * exists l. split; [by right|done].
      * destruct (Py.split Py.NL s) as [|l' ls]; [by apply elem_of_nil in Hin|].
        apply elem_of_cons in Hin as [->|Hin].
        -- exists (String c l'). split; [by left|]. by apply contains_cons.
        -- exists l. split; [by right|done].
Qed.

(** After a line with the marker the flag stays set. *)
Lemma in_records_for_each (lines : list string) (st st' : state) :
  for_each parse_line st lines = Ok st' →
  in_records st'
  = in_records st || existsb (Py.contains MARKER) lines.
Proof.
  revert st. induction lines as [|l lines IH]; intros st; simpl.
  - intros [= ->]. by rewrite orb_false_r.
  - destruct (Py.contains MARKER l) eqn:Hm.
    + rewrite (parse_line_marker _ _ Hm). simpl. intros H.
      rewrite (IH _ H). simpl. by rewrite orb_true_r.
    + destruct (in_records st) eqn:Hin.
      * rewrite (parse_line_token _ _ Hin Hm).
        destruct (price_token l); simpl; intros H; rewrite (IH _ H);
          simpl; by rewrite ?Hin.
      * rewrite (parse_line_skip _ _ Hm Hin). simpl. intros H.
        by rewrite (IH _ H), Hin.
Qed.

(** X4: a field line put behind a dump that holds the marker goes into
    the record that the dump left open: the completed records stay as
    they are, and the open record gets the value under the name of the
    field, in place of any value that it held there (the last write
    wins). *)
Theorem appended_field_line_wins (render : Investigation.pyval → string)
        (output : string) (kv : string * Investigation.pyval) :
  Py.contains MARKER output = true →
  Row.well_formed render kv = true →
  ∃ st, for_each parse_line initial (Py.split Py.NL output) = Ok st
        ∧ parse_price_records
            (output +:+ String Py.NL (Row.field_line kv.1 (render kv.2)))
          = Ok (prices st ++ [<[kv.1 := render kv.2]> (current_record st)]).
Proof.
  intros Hmarker Hwf.
  destruct (for_each_parse_line (Py.split Py.NL output) initial)
    as (st & Hrun & _ & _).
  exists st. split; [done|].
  pose proof (in_records_for_each _ _ _ Hrun) as Hin. simpl in Hin.
  destruct (contains_in_line MARKER output eq_refl Hmarker) as (l & Hl & Hml).
  assert (existsb (Py.contains MARKER) (Py.split Py.NL output) = true) as Hex.
  { apply existsb_exists. exists l. split; [by apply list_elem_of_In|done]. }
  rewrite Hex in Hin.
  pose proof (price_token_field_line _ _ Hwf) as Htok.
  apply well_formed_inv in Hwf as (Hnl & Hnm & _).
  unfold parse_price_records.
  rewrite split_app_lines, (split_no_sep _ _ Hnl), for_each_app, Hrun.
  simpl. rewrite (parse_line_token _ _ Hin Hnm), Htok. simpl.
  unfold append_if_truthy. by rewrite truthy_insert.
Qed.

Lemma appended_field_line_wins_witness :
  Py.contains MARKER Examples.base_and_surcharge = true
  ∧ Row.well_formed Examples.render Examples.level_x = true
  ∧ ∃ st, for_each parse_line initial
            (Py.split Py.NL Examples.base_and_surcharge) = Ok st
          ∧ parse_price_records
              (Examples.base_and_surcharge
               +:+ String Py.NL
                     (Row.field_line Examples.level_x.1
                        (Examples.render Examples.level_x.2)))
            = Ok (prices st
                  ++ [<[Examples.level_x.1
                        := Examples.render Examples.level_x.2]>
                        (current_record st)]).
Proof.
  split; [reflexivity|]. split; [reflexivity|].
  apply (appended_field_line_wins Examples.render Examples.base_and_surcharge
           Examples.level_x); reflexivity.
Defined.

Lemma price_tokens_app_any (b : bool) (l1 l2 : list string) :
  price_tokens b (l1 ++ l2)
  = price_tokens b l1
    ++ price_tokens (b || existsb (Py.contains MARKER) l1) l2.
Proof.
  revert b. induction l1 as [|l l1 IH]; intros b; simpl.
  - by rewrite orb_false_r.
  - destruct (Py.contains MARKER l); simpl.
    + by rewrite IH, orb_true_r.
    + destruct b; simpl; by rewrite IH.
Qed.

Lemma assemble_from_skip (acc : record) (ts ts' : list token) :
  assemble_from acc (ts ++ Ignorable :: ts') = assemble_from acc (ts ++ ts').
Proof.
  revert acc. induction ts as [|t ts IH]; intros acc; simpl; [done|].
  destruct t as [|name value|]; by rewrite ?IH.
Qed.

(** X5: a line that is no marker, no boundary and no field line (it has
    no colon, or it is a table banner) changes nothing, wherever it
    stands in the dump. *)
Theorem other_lines_change_nothing (a line b : string) :
  Py.has_char Py.NL line = false →
  Py.contains MARKER line = false →
  Py.startswith line "Record " = false →
  Py.contains ":" line && negb (Py.startswith (Py.strip line) "Table:")
  = false →
  parse_price_records (a +:+ String Py.NL (line +:+ String Py.NL b))
  = parse_price_records (a +:+ String Py.NL b).
Proof.
  intros Hnl Hm Hrec Hfield.
  assert (price_token line = Ignorable) as Htok.
  { unfold price_token. by rewrite Hrec, Hfield. }
  rewrite !parse_price_records_assemble, !split_app_lines.
  rewrite (split_no_sep _ _ Hnl), !price_tokens_app_any. simpl.
  rewrite Hm, Htok. unfold assemble.
  destruct (existsb (Py.contains MARKER) (Py.split Py.NL a));
    cbn [app orb]; by rewrite assemble_from_skip.
Qed.

Lemma other_lines_change_nothing_witness :
  Py.has_char Py.NL Examples.banner = false
  ∧ Py.contains MARKER Examples.banner = false
  ∧ Py.startswith Examples.banner "Record " = false
  ∧ Py.contains ":" Examples.banner
    && negb (Py.startswith (Py.strip Examples.banner) "Table:") = false
  ∧ parse_price_records
      (Examples.level_q
       +:+ String Py.NL (Examples.banner +:+ String Py.NL Examples.no_marker))
    = parse_price_records
        (Examples.level_q +:+ String Py.NL Examples.no_marker).
Proof.
  do 4 (split; [reflexivity|]).
  apply (other_lines_change_nothing Examples.level_q Examples.banner
           Examples.no_marker); reflexivity.
Defined.

End PricingLines.

(** ** Keys and values of the price records *)

Section Stripped.
Import Spec Tokens Pricing.

Lemma lstrip_chars_idem (P : ascii → bool) (s : string) :
  Py.lstrip_chars P (Py.lstrip_chars P s) = Py.lstrip_chars P s.
Proof.
  induction s as [|c s IH]; [done|]. simpl.
  destruct (P c) eqn:Hc; [done|]. simpl. by rewrite Hc.
Qed.

Lemma rstrip_chars_idem (P : ascii → bool) (s : string) :
  Py.rstrip_chars P (Py.rstrip_chars P s) = Py.rstrip_chars P s.
Proof.
  induction s as [|c s IH]; [done|]. simpl.
  destruct (Py.rstrip_chars P s) as [|a r] eqn:Hr.
  - destruct (P c) eqn:Hc; [done|]. simpl. by rewrite Hc.
  - cbn [Py.rstrip_chars]. cbn [Py.rstrip_chars] in IH. by rewrite IH.
Qed.

(** Stripping on the left keeps a text stripped on the right. *)
Lemma rstrip_lstrip (P : ascii → bool) (s : string) :
  Py.rstrip_chars P s = s →
  Py.rstrip_chars P (Py.lstrip_chars P s) = Py.lstrip_chars P s.
Proof.
  induction s as [|c s IH]; [done|]. intros H. simpl.
  destruct (P c) eqn:Hc; [|done]. apply IH.
  simpl in H. rewrite Hc in H.
  destruct (Py.rstrip_chars P s) as [|a r]; [done|]. by injection H.
Qed.

Lemma strip_chars_idem (P : ascii → bool) (s : string) :
  Py.strip_chars P (Py.strip_chars P s) = Py.strip_chars P s.
Proof.
  unfold Py.strip_chars.
  rewrite (rstrip_lstrip P (Py.rstrip_chars P s)) by apply rstrip_chars_idem.
  apply lstrip_chars_idem.
Qed.

Lemma has_char_lstrip (P : ascii → bool) (c : ascii) (s : string) :
  Py.has_char c s = false → Py.has_char c (Py.lstrip_chars P s) = false.
Proof.
  induction s as [|a s IH]; [done|]. intros H. simpl.
  destruct (P a); [|done]. simpl in H.
  apply orb_false_iff in H as [_ H]. by apply IH.
Qed.

Lemma has_char_rstrip (P : ascii → bool) (c : ascii) (s : string) :
  Py.has_char c s = false → Py.has_char c (Py.rstrip_chars P s) = false.
Proof.
  induction s as [|a s IH]; [done|]. intros H.
  cbn [Py.has_char] in H. apply orb_false_iff in H as [Ha H].
  specialize (IH H). cbn [Py.rstrip_chars].
  destruct (Py.rstrip_chars P s) as [|b r].
  - destruct (P a); cbn [Py.has_char]; by rewrite ?Ha.
  - change (Py.has_char c (String a (String b r)))
      with (Ascii.eqb a c || Py.has_char c (String b r)).
    by rewrite Ha, IH.
Qed.

Lemma has_char_strip (P : ascii → bool) (c : ascii) (s : string) :
  Py.has_char c s = false → Py.has_char c (Py.strip_chars P s) = false.
Proof. intros H. by apply has_char_lstrip, has_char_rstrip. Qed.

Lemma cut_inv (sep : ascii) (s a b : string) :
  Py.cut sep s = Some (a, b) →
  s = a +:+ String sep b ∧ Py.has_char sep a = false.
Proof.
  revert a. induction s as [|c s IH]; intros a; simpl; [done|].
  destruct (Ascii.eqb_spec c sep) as [->|Hne].
  - by intros [= <- <-].
  - destruct (Py.cut sep s) as [[a' b']|]; [|done]. intros [= <- <-].
    destruct (IH a' eq_refl) as [-> Ha]. split; [done|]. simpl.
    rewrite Ha. by apply orb_false_iff, conj; [apply Ascii.eqb_neq|].
Qed.

Lemma split_lines_no_sep (sep : ascii) (s l : string) :
  l ∈ Py.split sep s → Py.has_char sep l = false.
Proof.
  revert l. induction s as [|c s IH]; intros l; simpl.
  - by intros ->%list_elem_of_singleton.
  - destruct (Ascii.eqb_spec c sep) as [->|Hne].
    + intros [->|H]%elem_of_cons; [done|]. by apply IH.
    + destruct (Py.split sep s) as [|l' ls]; simpl.
      * intros ->%list_elem_of_singleton. simpl.
        by apply orb_false_iff, conj; [apply Ascii.eqb_neq|].
      * intros [->|H]%elem_of_cons.
        -- simpl. rewrite (IH l') by by left.
           by apply orb_false_iff, conj; [apply Ascii.eqb_neq|].
        -- apply IH. by right.
Qed.

Lemma price_tokens_field (b : bool) (lines : list string) (k v : string) :
  Field k v ∈ price_tokens b lines →
  ∃ line, line ∈ lines ∧ price_token line = Field k v.
Proof.
  revert b. induction lines as [|l lines IH]; intros b; simpl.
  - by intros H%elem_of_nil.
  - destruct (Py.contains MARKER l).
    + intros [H|H]%elem_of_cons; [done|].
      destruct (IH _ H) as (line & Hin & Ht). exists line. by split; [right|].
    + destruct b.
      * intros [H|H]%elem_of_cons.
        -- exists l. by split; [left|].
        -- destruct (IH _ H) as (line & Hin & Ht).
           exists line. by split; [right|].
      * intros [H|H]%elem_of_cons; [done|].
        destruct (IH _ H) as (line & Hin & Ht).
        exists line. by split; [right|].
Qed.

Lemma price_token_inv (line k v : string) :
  price_token line = Field k v →
  ∃ p0 p1, Py.cut Py.COLON line = Some (p0, p1)
           ∧ k = Py.strip p0 ∧ v = Py.strip_quotes (Py.strip p1).
Proof.
  unfold price_token. destruct (Py.startswith line "Record "); [done|].
  destruct (_ && _); [|done].
  destruct (Py.cut Py.COLON line) as [[p0 p1]|]; [|done].
  intros [= <- <-]. eauto.
Qed.

(** X6: in every record of [parse_price_records] a key has no blank at
    its ends and holds no colon, a value has no quote at its ends (it
    may hold colons and blanks), and neither holds a line break. *)
Theorem price_keys_and_values_are_stripped (output : string) :
  ∃ prices,
    parse_price_records output = Ok prices
    ∧ ∀ (r : record) (k v : string),
        r ∈ prices → r !! k = Some v →
        Py.strip k = k ∧ Py.has_char Py.COLON k = false
        ∧ Py.has_char Py.NL k = false
        ∧ Py.strip_quotes v = v ∧ Py.has_char Py.NL v = false.
Proof.
  eexists. split; [apply parse_price_records_assemble|].
  intros r k v Hr Hk.
  destruct (assemble_from_fields _ _ _ _ _ Hr Hk) as [H|H];
    [by rewrite lookup_empty in H|].
  apply price_tokens_field in H as (line & Hin & Htok).
  apply price_token_inv in Htok as (p0 & p1 & Hcut & -> & ->).
  apply cut_inv in Hcut as [Hline Hcolon].
  apply split_lines_no_sep in Hin. rewrite Hline, has_char_app in Hin.
  apply orb_false_iff in Hin as [Hnl0 Hnl1]. simpl in Hnl1.
  split_and!.
  - apply strip_chars_idem.
  - by apply has_char_strip.
  - by apply has_char_strip.
  - apply strip_chars_idem.
  - by apply has_char_strip, has_char_strip.
Qed.

Lemma price_keys_and_values_are_stripped_witness :
  ∃ prices,
    parse_price_records Examples.level_q = Ok prices
    ∧ ({["price_level" := "Q"]} : record) ∈ prices
    ∧ Py.strip "price_level" = "price_level"
    ∧ Py.has_char Py.COLON "price_level" = false
    ∧ Py.has_char Py.NL "price_level" = false
    ∧ Py.strip_quotes "Q" = "Q" ∧ Py.has_char Py.NL "Q" = false.
Proof.
  destruct (price_keys_and_values_are_stripped Examples.level_q)
    as (prices & Hparse & Hall).
  exists prices. split; [exact Hparse|].
  assert (({["price_level" := "Q"]} : record) ∈ prices) as Hin.
  { assert (Ok prices = Ok [({["price_level" := "Q"]} : record)]) as [= ->]
      by (rewrite <- Hparse; vm_compute; reflexivity).
    left. }
  split; [exact Hin|].
  exact (Hall {["price_level" := "Q"]} "price_level" "Q" Hin eq_refl).
Defined.

End Stripped.

(** ** The JSON price scan and the mapping counts *)

Section Scan.
Import Investigation.

Lemma price_record_cases (st : scan) (record : jrecord) :
  price_record st record
  = if level_is "B" record then
      Scan (S (base_count st)) (surcharge_count st)
           (if (S (base_count st) <=? 10)%nat
            then base_prices st ++ [sample_of record] else base_prices st)
           (surcharges st)
    else if level_is "X" record then
      Scan (base_count st) (S (surcharge_count st)) (base_prices st)
           (if (S (surcharge_count st) <=? 10)%nat
            then surcharges st ++ [sample_of record] else surcharges st)
    else st.
Proof. reflexivity. Qed.

Lemma level_is_lookup (literal : string) (record : jrecord) :
  literal ≠ "" →
  level_is literal record = true ↔ record !! "level" = Some (PStr literal).
Proof.
  intros Hne. unfold level_is.
  destruct (record !! "level") as [[s|n|b|]|]; simpl;
    rewrite ?bool_decide_eq_true; naive_solver.
Qed.

Lemma take_snoc {A} (n : nat) (l : list A) (x : A) :
  take n (l ++ [x])
  = if (S (length l) <=? n)%nat then take n l ++ [x] else take n l.
Proof.
  destruct (Nat.leb_spec (S (length l)) n).
  - rewrite !take_ge; [done|lia|]. rewrite length_app. simpl. lia.
  - apply take_app_le. lia.
Qed.

Lemma scan_closed_form (records : list jrecord) :
  foldl price_record (Scan 0 0 [] []) records
  = Scan (length (filter (λ r, level_is "B" r = true) records))
         (length (filter (λ r, level_is "X" r = true) records))
         (take 10 (map sample_of
                     (filter (λ r, level_is "B" r = true) records)))
         (take 10 (map sample_of
                     (filter (λ r, level_is "X" r = true) records))).
Proof.
  induction records as [|r records IH] using rev_ind; [done|].
  rewrite foldl_app, IH. cbn [foldl]. rewrite price_record_cases.
  cbn [base_count surcharge_count base_prices surcharges].
  rewrite !filter_app, !filter_cons, !filter_nil.
  destruct (decide (level_is "B" r = true)) as [HB|HB].
  - assert (level_is "X" r = false) as HX.
    { apply (level_is_lookup "B") in HB; [|done].
      unfold level_is. by rewrite HB. }
    rewrite HB, decide_False by by rewrite HX.
    rewrite !app_nil_r, map_app, length_app. cbn [map length].
    rewrite take_snoc, length_map, Nat.add_1_r. done.
  - apply not_true_is_false in HB. rewrite HB.
    destruct (decide (level_is "X" r = true)) as [HX|HX].
    + rewrite HX, !app_nil_r, map_app, length_app. cbn [map length].
      rewrite take_snoc, length_map, Nat.add_1_r. done.
    + apply not_true_is_false in HX. by rewrite HX, !app_nil_r.
Qed.

Lemma scan_prices_foldl (price_data : option (list jrecord)) :
  scan_prices price_data
  = foldl price_record (Scan 0 0 [] []) (default [] price_data).
Proof. by destruct price_data as [[|r rs]|]. Qed.

(** X7: the price scan of the JSON path counts the records whose level is
    the string B and those whose level is the string X, and keeps as
    samples the first ten of each, in the order of the input; so a sample
    list has the length of its count up to ten, and the two counts
    together never exceed the number of records. *)
Theorem price_scan_counts_and_samples (price_data : option (list jrecord)) :
  scan_prices price_data
  = Scan (length (filter (λ r, level_is "B" r = true)
                         (default [] price_data)))
         (length (filter (λ r, level_is "X" r = true)
                         (default [] price_data)))
         (take 10 (map sample_of
                     (filter (λ r, level_is "B" r = true)
                             (default [] price_data))))
         (take 10 (map sample_of
                     (filter (λ r, level_is "X" r = true)
                             (default [] price_data))))
  ∧ length (base_prices (scan_prices price_data))
    = 10 `min` base_count (scan_prices price_data)
  ∧ length (surcharges (scan_prices price_data))
    = 10 `min` surcharge_count (scan_prices price_data)
  ∧ base_count (scan_prices price_data)
    + surcharge_count (scan_prices price_data)
    ≤ length (default [] price_data).
Proof.
  rewrite scan_prices_foldl, scan_closed_form. simpl.
  rewrite !length_take, !length_map. split_and!; [done..|].
  induction (default [] price_data) as [|r rs IH]; [done|].
  rewrite !filter_cons.
  destruct (decide (level_is "B" r = true)) as [HB|HB].
  - assert (level_is "X" r = false) as HX.
    { apply (level_is_lookup "B") in HB; [|done].
      unfold level_is. by rewrite HB. }
    rewrite decide_False by by rewrite HX. simpl. lia.
  - destruct (decide (level_is "X" r = true)); simpl; lia.
Qed.

(** X8: the JSON path has no bucket for the rest.  When no record holds
    the string B or X under the key level (the key is absent, or holds
    another string, a number, a boolean or null), the scan is the empty
    one: objects that keep their level under price_level, the key of the
    text dump, leave no trace. *)
Theorem records_without_level_leave_no_trace (records : list jrecord) :
  forallb (λ r, bool_decide (r !! "level" ∉ [Some (PStr "B"); Some (PStr "X")]))
          records = true →
  scan_prices (Some records) = Scan 0 0 [] [].
Proof.
  intros H.
  rewrite scan_prices_foldl, scan_closed_form. simpl.
  assert (∀ l, l = "B" ∨ l = "X" →
            filter (λ r, level_is l r = true) records = []) as Hnone.
  { intros l Hl. induction records as [|r rs IH]; [done|].
    simpl in H. apply andb_true_iff in H as [Hr H].
    apply bool_decide_eq_true in Hr. rewrite filter_cons, (IH H).
    rewrite decide_False; [done|]. intros Hlevel.
    apply level_is_lookup in Hlevel; [|by destruct Hl as [-> | ->]].
    apply Hr. rewrite Hlevel. destruct Hl as [-> | ->]; set_solver. }
  by rewrite !Hnone by auto.
Qed.

Lemma records_without_level_leave_no_trace_witness :
  forallb (λ r, bool_decide (r !! "level" ∉ [Some (PStr "B"); Some (PStr "X")]))
          [Examples.keyed_by_price_level] = true
  ∧ scan_prices (Some [Examples.keyed_by_price_level]) = Scan 0 0 [] [].
Proof.
  split; [vm_compute; reflexivity|].
  apply (records_without_level_leave_no_trace [Examples.keyed_by_price_level]).
  vm_compute. reflexivity.
Defined.

Lemma wildcard_lookup (record : jrecord) :
  py_eq (get record "article_nr") (PStr "*") = true
  ↔ record !! "article_nr" = Some (PStr "*").
Proof.
  unfold get. destruct (record !! "article_nr") as [[s|n|b|]|]; simpl;
    rewrite ?bool_decide_eq_true; naive_solver.
Qed.

(** X9: the mapping counts are printed for a table with at least one
    row, and then every row is counted once: as a wildcard when it holds
    the string of one star under article_nr, as article-specific in every
    other case, also when the key is absent. *)
Theorem mapping_counts_partition (propclass_data : option (list jrecord)) :
  match propclass_counts propclass_data with
  | Some (total, article_specific, wildcard) =>
      total = length (default [] propclass_data) ∧ 0 < total
      ∧ article_specific + wildcard = total
      ∧ wildcard
        = length (filter (λ r, r !! "article_nr" = Some (PStr "*"))
                         (default [] propclass_data))
  | None => default [] propclass_data = []
  end.
Proof.
  destruct propclass_data as [[|r rs]|]; try done.
  unfold propclass_counts. cbn [default from_option]. unfold id.
  assert (0 < length (r :: rs)) as Hpos by (simpl; lia).
  revert Hpos. generalize (r :: rs). intros l Hpos. clear r rs.
  assert (length (filter (λ r, py_eq (get r "article_nr") (PStr "*") = true) l)
          = length (filter (λ r, r !! "article_nr" = Some (PStr "*")) l)
          ∧ length (filter (λ r, py_eq (get r "article_nr") (PStr "*") = false)
                           l)
            + length (filter (λ r, py_eq (get r "article_nr") (PStr "*")
                                   = true) l)
            = length l) as [Hw Hsum].
  { clear Hpos. induction l as [|r l [IH1 IH2]]; [done|].
    rewrite !filter_cons. pose proof (wildcard_lookup r) as Hr.
    destruct (py_eq (get r "article_nr") (PStr "*"));
      repeat case_decide; simpl; try (split; lia); exfalso;
      destruct Hr; intuition congruence. }
  by rewrite <- Hw.
Qed.

End Scan.

(** ** Projection on both paths (C6) *)

Section Projected.
Import Investigation.

(** A match of the pattern of a field implies the containment test that
    guards it. *)
Lemma re_search_guard (field line g : string) :
  Py.re_search false (field +:+ ": ") line = Some g →
  Py.contains (field +:+ ":") line = true.
Proof.
  intros H. apply re_search_sound in H as (pre & post & -> & _).
  replace (pre +:+ ((field +:+ ": ") +:+ String Py.QUOTE "")
               +:+ g +:+ String Py.QUOTE post)
    with (pre +:+ (field +:+ ":")
              +:+ (String " " (String Py.QUOTE (g +:+ String Py.QUOTE post)))).
  - apply contains_prefix.
  - f_equal. by rewrite !append_assoc.
Qed.

Lemma price_field_match (line : string) (acc : record) (field : string) :
  Compare.price_field line acc field
  = match Py.re_search false (field +:+ ": ") line with
    | Some g => <[field := g]> acc
    | None => acc
    end.
Proof.
  unfold Compare.price_field.
  destruct (Py.re_search false (field +:+ ": ") line) as [g|] eqn:E.
  - by rewrite (re_search_guard _ _ _ E).
  - by destruct (Py.contains (field +:+ ":") line).
Qed.

(** One line, all fields: a requested field that matches is set, every
    other key is left as it was. *)
Lemma price_fields_lookup (line : string) (fields : list string)
      (acc : record) (f : string) :
  foldl (Compare.price_field line) acc fields !! f
  = if bool_decide (f ∈ fields)
    then from_option Some (acc !! f)
           (Py.re_search false (f +:+ ": ") line)
    else acc !! f.
Proof.
  revert acc. induction fields as [|a fields IH]; intros acc; [done|].
  cbn [foldl]. rewrite IH, price_field_match.
  destruct (decide (a = f)) as [->|Hne].
  - rewrite (bool_decide_eq_true_2 (f ∈ f :: fields)) by left.
    destruct (Py.re_search false (f +:+ ": ") line) as [g|]; simpl.
    + rewrite lookup_insert_eq. by destruct (bool_decide (f ∈ fields)).
    + by destruct (bool_decide (f ∈ fields)).
  - assert (bool_decide (f ∈ a :: fields) = bool_decide (f ∈ fields)) as ->.
    { apply bool_decide_ext. rewrite elem_of_cons.
      split; [by intros [->|?]|by right]. }
    destruct (Py.re_search false (a +:+ ": ") line) as [g|]; [|done].
    by rewrite lookup_insert_ne.
Qed.

(** The lines of one record, all fields: the last match wins. *)
Lemma price_lines_lookup (fields : list string) (segment : list string)
      (acc : record) (f : string) :
  foldl (λ acc line, foldl (Compare.price_field line) acc fields) acc segment
  !! f
  = if bool_decide (f ∈ fields)
    then from_option Some (acc !! f) (Projector.field_value f segment)
    else acc !! f.
Proof.
  induction segment as [|line segment IH] using rev_ind.
  - simpl. by destruct (bool_decide (f ∈ fields)).
  - rewrite foldl_app. cbn [foldl]. rewrite price_fields_lookup, IH.
    unfold Projector.field_value. rewrite omap_app.
    destruct (bool_decide (f ∈ fields)); [|done].
    change (omap (Py.re_search false (f +:+ ": ")) [line])
      with (match Py.re_search false (f +:+ ": ") line with
            | Some g => [g]
            | None => []
            end).
    destruct (Py.re_search false (f +:+ ": ") line) as [g|]; simpl.
    + by rewrite last_snoc.
    + by rewrite app_nil_r.
Qed.

Lemma project_lookup (fields : list string) (segment : list string)
      (f : string) :
  Projector.project fields segment !! f
  = if bool_decide (f ∈ fields)
    then Projector.field_value f segment else None.
Proof.
  unfold Projector.project.
  induction fields as [|a fields IH]; cbn [foldr]; [done|].
  destruct (decide (a = f)) as [->|Hne].
  - rewrite (bool_decide_eq_true_2 (f ∈ f :: fields)) by left.
    destruct (Projector.field_value f segment) as [v|] eqn:E.
    + by rewrite lookup_insert_eq.
    + rewrite IH. by destruct (bool_decide (f ∈ fields)).
  - assert (bool_decide (f ∈ a :: fields) = bool_decide (f ∈ fields)) as ->.
    { apply bool_decide_ext. rewrite elem_of_cons.
      split; [by intros [->|?]|by right]. }
    destruct (Projector.field_value a segment) as [v|]; [|done].
    by rewrite lookup_insert_ne.
Qed.

Lemma price_lines_project (segment : list string) :
  foldl (λ acc line, foldl (Compare.price_field line) acc Compare.FIELDS)
        ∅ segment
  = Projector.project Compare.FIELDS segment.
Proof.
  apply map_eq. intros f.
  rewrite price_lines_lookup, project_lookup, lookup_empty.
  destruct (bool_decide (f ∈ Compare.FIELDS)); [|done].
  by destruct (Projector.field_value f segment).
Qed.

Lemma segments_not_nil (lines : list string) : Projector.segments lines ≠ [].
Proof.
  induction lines as [|line lines IH]; [done|]. simpl.
  destruct (Py.startswith line "Record"); [done|].
  by destruct (Projector.segments lines).
Qed.

Lemma append_if_truthy_filter (l : list record) (d : record) :
  append_if_truthy l d = l ++ filter (λ r, r ≠ ∅) [d].
Proof.
  rewrite append_if_truthy_app, filter_cons, filter_nil.
  unfold truthy. destruct (decide (d = ∅)) as [->|Hne].
  - rewrite bool_decide_eq_true_2 by done. simpl.
    by destruct (decide ((∅ : record) ≠ ∅)).
  - rewrite bool_decide_eq_false_2 by done. simpl.
    by destruct (decide (d ≠ ∅)).
Qed.

(** The loop of [extract_price_data], from any state: the accumulator
    takes the lines before the first boundary, every boundary starts
    from an empty one. *)
Lemma price_loop_segments (lines : list string) (ps : list record)
      (cur : record) :
  append_if_truthy
    (Compare.prices (foldl Compare.price_line (Compare.State ps cur) lines))
    (Compare.current_price
       (foldl Compare.price_line (Compare.State ps cur) lines))
  = ps ++ filter (λ r, r ≠ ∅)
            (match Projector.segments lines with
             | [] => []
             | segment :: rest =>
                 foldl (λ acc line,
                          foldl (Compare.price_field line) acc Compare.FIELDS)
                       cur segment
                 :: map (Projector.project Compare.FIELDS) rest
             end).
Proof.
  revert ps cur. induction lines as [|line lines IH]; intros ps cur.
  - simpl. apply append_if_truthy_filter.
  - cbn [foldl Projector.segments]. unfold Compare.price_line at 2 4.
    cbn [Compare.prices Compare.current_price].
    destruct (Py.startswith line "Record").
    + rewrite IH, append_if_truthy_filter, <- app_assoc. f_equal.
      pose proof (segments_not_nil lines) as Hne.
      destruct (Projector.segments lines) as [|segment rest]; [done|].
      cbn [foldl map]. rewrite price_lines_project.
      rewrite (filter_cons _ cur), (filter_cons _ cur), filter_nil.
      by destruct (decide (cur ≠ ∅)).
    + rewrite IH.
      pose proof (segments_not_nil lines) as Hne.
      by destruct (Projector.segments lines) as [|segment rest].
Qed.

Lemma sample_of_lookups (record : jrecord) :
  sample_of record !! "article_nr"
  = Some (default (PStr "") (record !! "article_nr"))
  ∧ sample_of record !! "var_cond"
    = Some (default (PStr "") (record !! "var_cond"))
  ∧ sample_of record !! "price"
    = Some (default (PInt 0) (record !! "price")).
Proof.
  unfold sample_of, sample. split_and!.
  - rewrite !lookup_insert_ne by done. by rewrite lookup_insert_eq.
  - rewrite lookup_insert_ne by done. by rewrite lookup_insert_eq.
  - by rewrite lookup_insert_eq.
Qed.

Lemma sample_from_record (literal : string) (records : list jrecord)
      (s : jrecord) :
  s ∈ take 10 (map sample_of
                 (filter (λ r, level_is literal r = true) records)) →
  ∃ record, record ∈ records ∧ level_is literal record = true
            ∧ s = sample_of record.
Proof.
  intros H. apply elem_of_take in H as (i & H & _).
  apply list_elem_of_lookup_2, list_elem_of_fmap in H as (record & -> & H).
  apply list_elem_of_filter in H as [Hlevel Hin]. eauto.
Qed.

(** C6, as the claim states it, fails on the JSON path: the object
    [Examples.level_only] has no variant condition, and its sample holds
    the empty string under that key, the same sample as for an object
    that spells the empty fields out. *)
Lemma absent_field_gets_default :
  Examples.level_only !! "var_cond" = None
  ∧ Investigation.base_prices
      (Investigation.scan_prices (Some [Examples.level_only]))
    = Investigation.base_prices
        (Investigation.scan_prices (Some [Examples.level_and_blanks]))
  ∧ ∃ s, Investigation.base_prices
           (Investigation.scan_prices (Some [Examples.level_only])) = [s]
         ∧ s !! "var_cond" = Some (Investigation.PStr "").
Proof.
  split; [done|]. split; [by vm_compute|].
  eexists. split; [reflexivity|]. by vm_compute.
Qed.

(** C6 (amended): on the text path [extract_price_data] returns, in
    order, the projection on the requested field names of every record
    of the dump (the lines before the first boundary line, and the lines
    after each boundary line up to the next), the empty projections left
    out.  The projection of a record holds a requested name exactly when
    a line of that same record gives it a value, and then the value of
    the last such line; a name that no line of the record gives, or that
    was not requested, is not a key, so a missing field and an empty one
    stay apart.  On the JSON path this fails: every sample is built from
    one price object of level B or X and holds all of the keys
    article_nr, var_cond and price, with the value of the object where
    it has the key and with the default (the empty string, or the number
    0 for price) where it has not. *)
Theorem projection_of_present_fields (output : string)
        (price_data : option (list jrecord)) :
  Compare.extract_price_data output
  = filter (λ r, r ≠ ∅)
      (map (Projector.project Compare.FIELDS)
           (Projector.segments (Py.split Py.NL output)))
  ∧ (∀ segment f,
       Projector.project Compare.FIELDS segment !! f
       = if bool_decide (f ∈ Compare.FIELDS)
         then Projector.field_value f segment else None)
  ∧ (∀ s, s ∈ base_prices (scan_prices price_data)
              ++ surcharges (scan_prices price_data) →
          ∃ record,
            record ∈ default [] price_data
            ∧ (level_is "B" record = true ∨ level_is "X" record = true)
            ∧ s = sample_of record
            ∧ s !! "article_nr"
              = Some (default (PStr "") (record !! "article_nr"))
            ∧ s !! "var_cond"
              = Some (default (PStr "") (record !! "var_cond"))
            ∧ s !! "price" = Some (default (PInt 0) (record !! "price"))
            ∧ dom s = ({["article_nr"; "var_cond"; "price"]} : gset string)).
Proof.
  split_and!.
  - unfold Compare.extract_price_data. cbv zeta.
    rewrite price_loop_segments, app_nil_l.
    pose proof (segments_not_nil (Py.split Py.NL output)) as Hne.
    destruct (Projector.segments (Py.split Py.NL output)) as [|segment rest];
      [done|].
    cbn [map]. by rewrite price_lines_project.
  - intros segment f. apply project_lookup.
  - intros s Hs. rewrite scan_prices_foldl, scan_closed_form in Hs.
    cbn [base_prices surcharges] in Hs.
    apply elem_of_app in Hs as [Hs|Hs];
      apply sample_from_record in Hs as (record & Hin & Hlevel & ->);
      exists record; destruct (sample_of_lookups record) as (Ha & Hv & Hp);
      split_and!; auto using dom_sample.
Qed.

Lemma projection_of_present_fields_witness :
  Compare.extract_price_data Examples.two_price_records
  = [{["var_cond" := ""]}; {["article_nr" := "A"]}]
  ∧ sample_of Examples.level_only
    ∈ base_prices (scan_prices (Some [Examples.level_only]))
      ++ surcharges (scan_prices (Some [Examples.level_only]))
  ∧ ∃ record,
      record ∈ [Examples.level_only]
      ∧ sample_of Examples.level_only !! "var_cond"
        = Some (default (PStr "") (record !! "var_cond")).
Proof.
  pose proof (projection_of_present_fields
                Examples.two_price_records (Some [Examples.level_only]))
    as (Htext & _ & Hjson).
  assert (sample_of Examples.level_only
            ∈ base_prices (scan_prices (Some [Examples.level_only]))
              ++ surcharges (scan_prices (Some [Examples.level_only])))
    as Hin.
  { vm_compute. left. }
  split; [|split; [exact Hin|]].
  - rewrite Htext. vm_compute. reflexivity.
  - destruct (Hjson _ Hin) as (record & Hrecord & _ & _ & _ & Hv & _).
    exists record. split; [exact Hrecord|exact Hv].
Defined.

End Projected.

(** ** Property classes of a series and the summary of main *)

Section Classes.
Import Framery.

(** X10: [extract_property_classes] returns the values matched by the
    pattern of prop_class on the lines that hold the field, in ascending
    order and each one once, so that the set made of the list is the set
    that the loop collected; no class is empty or holds a quote. *)
Theorem property_classes_sorted_and_distinct (output : string) :
  Sorted String.le (extract_property_classes output)
  ∧ NoDup (extract_property_classes output)
  ∧ list_to_set (extract_property_classes output)
    = foldl property_class_line (∅ : gset string) (Py.split Py.NL output)
  ∧ (∀ c, c ∈ extract_property_classes output
          ↔ ∃ line, line ∈ Py.split Py.NL output
                    ∧ Py.contains "prop_class:" line = true
                    ∧ Py.re_search true "prop_class: " line = Some c)
  ∧ Forall (λ c, c ≠ "" ∧ Py.has_char Py.QUOTE c = false)
      (extract_property_classes output).
Proof.
  split_and!.
  - apply extract_property_classes_spec. exact "".
  - unfold extract_property_classes, sorted.
    rewrite (merge_sort_Permutation String.le). apply NoDup_elements.
  - unfold extract_property_classes, sorted. apply set_eq. intros c.
    by rewrite elem_of_list_to_set, (merge_sort_Permutation String.le),
      elem_of_elements.
  - intros c. apply extract_property_classes_spec.
  - apply Forall_forall. intros c Hc.
    apply extract_property_classes_spec in Hc as (line & _ & _ & Hm).
    apply re_search_sound in Hm as (pre & post & _ & Hq & Hne).
    split; [|done]. by intros ->.
Qed.

(** X11: the sharing check never raises: the index of the first series is
    guarded by the test on the length.  It gives no verdict exactly when
    there is no series, and one series alone is always Shared. *)
Theorem sharing_check_never_raises (all_series_data : list (string * series_data))
        (d : string * series_data) :
  (∃ v, sharing_verdict all_series_data = Ok v
        ∧ (v = None ↔ all_series_data = []))
  ∧ sharing_verdict [d] = Ok (Some Shared).
Proof.
  split.
  - destruct all_series_data as [|d' ds].
    + by exists None.
    + rewrite sharing_verdict_cons. eexists. split; [done|]. by split.
  - rewrite sharing_verdict_cons. simpl.
    by rewrite bool_decide_eq_true_2.
Qed.

Lemma all_equal_perm (sets sets' : list (gset string)) :
  sets ≡ₚ sets' → Spec.all_equal sets = Spec.all_equal sets'.
Proof.
  intros Hp. apply eq_true_iff_eq. rewrite !all_equal_spec.
  split; intros H A B HA HB; apply H.
  - by rewrite Hp. - by rewrite Hp. - by rewrite <- Hp. - by rewrite <- Hp.
Qed.

(** X12: the verdict does not depend on the order of the series, that is
    on which series happens to be the first one. *)
Theorem sharing_verdict_any_order (data data' : list (string * series_data)) :
  data ≡ₚ data' → sharing_verdict data = sharing_verdict data'.
Proof.
  intros Hp. destruct data as [|d ds], data' as [|d' ds'].
  - done.
  - by apply Permutation_nil_l in Hp.
  - by apply Permutation_nil_r in Hp.
  - rewrite !sharing_verdict_sets.
    by rewrite (all_equal_perm _ _ (fmap_Permutation _ _ _ Hp)).
Qed.

Lemma sharing_verdict_any_order_witness :
  [Examples.fast_kr; Examples.framery_one; Examples.framery_2q]
    ≡ₚ [Examples.framery_one; Examples.framery_2q; Examples.fast_kr]
  ∧ sharing_verdict
      [Examples.fast_kr; Examples.framery_one; Examples.framery_2q]
    = sharing_verdict
        [Examples.framery_one; Examples.framery_2q; Examples.fast_kr].
Proof.
  assert ([Examples.fast_kr; Examples.framery_one; Examples.framery_2q]
            ≡ₚ [Examples.framery_one; Examples.framery_2q; Examples.fast_kr])
    as Hp.
  { etrans; [apply perm_swap|]. apply perm_skip, perm_swap. }
  split; [exact Hp|].
  exact (sharing_verdict_any_order _ _ Hp).
Defined.

Lemma elem_of_all_prop_classes (data : list (string * series_data))
      (c : string) :
  c ∈ all_prop_classes data ↔ ∃ d, d ∈ data ∧ c ∈ class_set d.2.
Proof.
  unfold all_prop_classes.
  assert (∀ acc : gset string,
    c ∈ foldl (λ acc data, acc ∪ list_to_set (property_classes data)) acc
              (map snd data)
    ↔ c ∈ acc ∨ ∃ d, d ∈ data ∧ c ∈ class_set d.2) as H.
  { induction data as [|d data IH]; intros acc; simpl.
    - split; [by left|]. intros [H|(d & H & _)]; [done|].
      by apply elem_of_nil in H.
    - rewrite IH, elem_of_union. unfold class_set. split.
      + intros [[H|H]|(d' & Hin & H)]; [by left| |].
        * right. exists d. split; [by left|done].
        * right. exists d'. split; [by right|done].
      + intros [H|(d' & Hin & H)]; [by left; left|].
        apply elem_of_cons in Hin as [->|Hin]; [by left; right|].
        right. by exists d'. }
  rewrite H. split; [|by right]. intros [Hc|Hc]; [|done].
  by apply not_elem_of_empty in Hc.
Qed.

(** X13: the set of all property classes that [main] prints holds the
    classes of every series, and with at least one series the verdict is
    Shared exactly when every series has all of them. *)
Theorem shared_means_every_series_has_all (data : list (string * series_data)) :
  data ≠ [] →
  (∀ d, d ∈ data → class_set d.2 ⊆ all_prop_classes data)
  ∧ (sharing_verdict data = Ok (Some Shared)
     ↔ ∀ d, d ∈ data → class_set d.2 = all_prop_classes data).
Proof.
  intros Hne. split.
  - intros d Hd c Hc. apply elem_of_all_prop_classes. eauto.
  - destruct data as [|d0 ds]; [done|]. rewrite sharing_verdict_sets.
    destruct (Spec.all_equal _) eqn:Hall.
    + split; [intros _|done]. intros d Hd. apply set_eq. intros c.
      rewrite elem_of_all_prop_classes. split; [eauto|].
      intros (d' & Hd' & Hc).
      apply all_equal_spec with (A := class_set d.2) (B := class_set d'.2)
        in Hall; [by rewrite Hall| |];
        apply list_elem_of_fmap; eauto.
    + split; [done|]. intros H. exfalso.
      apply not_true_iff_false in Hall. apply Hall, all_equal_spec.
      intros A B (a & -> & Ha)%list_elem_of_fmap
                 (b & -> & Hb)%list_elem_of_fmap.
      by rewrite (H a Ha), (H b Hb).
Qed.

Lemma shared_means_every_series_has_all_witness :
  [Examples.framery_one; Examples.framery_2q] ≠ []
  ∧ (∀ d, d ∈ [Examples.framery_one; Examples.framery_2q] →
          class_set d.2
          ⊆ all_prop_classes [Examples.framery_one; Examples.framery_2q])
  ∧ (sharing_verdict [Examples.framery_one; Examples.framery_2q]
     = Ok (Some Shared)
     ↔ ∀ d, d ∈ [Examples.framery_one; Examples.framery_2q] →
            class_set d.2
            = all_prop_classes [Examples.framery_one; Examples.framery_2q]).
Proof.
  split; [done|].
  apply (shared_means_every_series_has_all
           [Examples.framery_one; Examples.framery_2q]).
  done.
Defined.

(** X14: two series, each stored by [main] from its three dumps, are
    Shared exactly when the dumps of their properties give the same
    classes: the same values matched by the pattern of prop_class,
    whatever their order and number, and whatever the other lines and
    the other two dumps hold. *)
Theorem series_from_dumps_shared (n1 n2 path1 path2 props1 props2
                                  articles1 articles2 classes1 classes2
                                  : string) :
  sharing_verdict
    [(n1, series_entry path1 props1 articles1 classes1);
     (n2, series_entry path2 props2 articles2 classes2)]
  = Ok (Some Shared)
  ↔ ∀ c, (∃ line, line ∈ Py.split Py.NL props1
                  ∧ Py.contains "prop_class:" line = true
                  ∧ Py.re_search true "prop_class: " line = Some c)
         ↔ (∃ line, line ∈ Py.split Py.NL props2
                    ∧ Py.contains "prop_class:" line = true
                    ∧ Py.re_search true "prop_class: " line = Some c).
Proof.
  rewrite sharing_verdict_cons. simpl.
  rewrite (bool_decide_eq_true_2 (class_set _ = class_set _)) by done.
  rewrite andb_true_r. simpl. unfold class_set. simpl.
  split.
  - intros H c. case_bool_decide as Heq; [|done].
    pose proof (extract_property_classes_spec props1 c) as [_ <-].
    pose proof (extract_property_classes_spec props2 c) as [_ <-].
    by rewrite <- !(elem_of_list_to_set (C := gset string)), Heq.
  - intros H. rewrite bool_decide_eq_true_2; [done|].
    apply set_eq. intros c. rewrite !elem_of_list_to_set.
    pose proof (extract_property_classes_spec props1 c) as [_ ->].
    pose proof (extract_property_classes_spec props2 c) as [_ ->].
    symmetry. apply H.
Qed.

End Classes.

(** ** The comparison table *)

Section TablePatterns.
Import Investigation Table.

Lemma sample_of_var_cond (record : jrecord) :
  sample_of record !! "var_cond"
  = Some (default (PStr "") (record !! "var_cond")).
Proof.
  unfold sample_of, sample.
  rewrite lookup_insert_ne by done. by rewrite lookup_insert_eq.
Qed.

(** Every sample of a scan holds a variant condition. *)
Lemma scan_samples_have_var_cond (price_data : option (list jrecord)) :
  Forall (λ s : jrecord, is_Some (s !! "var_cond"))
         (base_prices (scan_prices price_data))
  ∧ Forall (λ s : jrecord, is_Some (s !! "var_cond"))
           (surcharges (scan_prices price_data)).
Proof.
  rewrite scan_prices_foldl, scan_closed_form. simpl.
  split; apply Forall_take, Forall_fmap, Forall_forall; intros r _; simpl;
    by rewrite sample_of_var_cond.
Qed.

Lemma collect_var_conds_failures (samples : list jrecord) :
  Forall (λ s : jrecord, is_Some (s !! "var_cond")) samples →
  collect_var_conds samples ≠ inl KeyError
  ∧ (collect_var_conds samples = inl TypeError
     ↔ Exists (λ s : jrecord, ∀ t, s !! "var_cond" ≠ Some (PStr t)) samples).
Proof.
  induction 1 as [|s samples [v Hv] _ [IH1 IH2]].
  - split; [done|]. split; [done|]. by intros ?%Exists_nil.
  - cbn [collect_var_conds]. rewrite Exists_cons, <- IH2, Hv.
    destruct (collect_var_conds samples) as [[]|l]; [done| |].
    + destruct v; (split; [done|]); split; auto.
    + destruct v as [t|n|b|].
      * split; [done|]. split; [done|].
        intros [H|H]; [by destruct (H t)|done].
      * split; [done|]. split; [|done]. intros _. left. by intros t.
      * split; [done|]. split; [|done]. intros _. left. by intros t.
      * split; [done|]. split; [|done]. intros _. left. by intros t.
Qed.

Lemma pattern_failures (limit : nat) (samples : list jrecord)
      (e : failure) :
  pattern limit samples = inl e ↔ collect_var_conds samples = inl e.
Proof.
  unfold pattern. destruct samples as [|s samples].
  - simpl. split; intros [=].
  - destruct (collect_var_conds (s :: samples)).
    + split; by intros [= ->].
    + split; intros [=].
Qed.

(** X15: the pattern columns of the comparison table never fail on an
    absent key, since every sample of a scan holds a variant condition;
    the base column fails with a type error exactly when a sample holds
    a variant condition that is not a string (a null, a number or a
    boolean of the JSON input).  The cut of the surcharge samples to ten
    changes nothing, a scan keeps no more. *)
Theorem table_patterns_fail_on_non_strings
        (price_data : option (list jrecord)) :
  base_pattern (scan_prices price_data) ≠ inl KeyError
  ∧ surch_pattern (scan_prices price_data) ≠ inl KeyError
  ∧ (base_pattern (scan_prices price_data) = inl TypeError
     ↔ Exists (λ s : jrecord, ∀ t, s !! "var_cond" ≠ Some (PStr t))
              (base_prices (scan_prices price_data)))
  ∧ surch_pattern (scan_prices price_data)
    = pattern 2 (surcharges (scan_prices price_data)).
Proof.
  destruct (scan_samples_have_var_cond price_data) as [Hb Hs].
  assert (take 10 (surcharges (scan_prices price_data))
          = surcharges (scan_prices price_data)) as Htake.
  { rewrite scan_prices_foldl, scan_closed_form. simpl. apply take_idemp. }
  unfold base_pattern, surch_pattern. rewrite Htake.
  destruct (collect_var_conds_failures _ Hb) as [Hkey Htype].
  destruct (collect_var_conds_failures _ Hs) as [Hkey' _].
  split_and!; [by rewrite pattern_failures..| |done].
  by rewrite pattern_failures.
Qed.

(** A null variant condition stops the table. *)
Example null_var_cond_stops_table :
  base_pattern (scan_prices (Some [Examples.null_var_cond]))
  = inl TypeError.
Proof. by vm_compute. Qed.

End TablePatterns.

(** ** The report of the text path *)

Section Report.
Import Pricing.

(** X16: the report lists what it counts.  Its base prices are exactly
    the parsed records of level B, all of them and in the order of the
    dump; their number is the base count; and the key finding built from
    the report is the warning exactly when the list is empty; else it
    names the count and has one line for each base price, with the
    article number, the price and the currency of that record, N/A
    standing for a field that the record does not have. *)
Theorem report_lists_what_it_counts (name output : string) :
  ∃ prices r,
    parse_price_records output = Ok prices
    ∧ analyze_manufacturer name output = Ok r
    ∧ base_prices r = filter (λ p, level p = Some "B") prices
    ∧ (∀ p, p ∈ base_prices r ↔ p ∈ prices ∧ level p = Some "B")
    ∧ total r = length prices
    ∧ base r = length (base_prices r)
    ∧ Forall (λ p, level p = Some "B") (base_prices r)
    ∧ base_prices r `sublist_of` prices
    ∧ match key_finding r with
      | NoBasePrices n =>
          n = name ∧ base_prices r = []
          ∧ Forall (λ p, level p ≠ Some "B") prices
      | HasBasePrices n count lines =>
          n = name ∧ count = length lines ∧ 0 < count
          ∧ length lines = length (base_prices r)
          ∧ lines = map (λ bp : record,
                           (default "N/A" (bp !! "article_nr"),
                            default "N/A" (bp !! "price"),
                            default "N/A" (bp !! "currency")))
                        (base_prices r)
      end.
Proof.
  rewrite analyze_manufacturer_ok, parse_price_records_assemble.
  eexists _, _. do 2 (split; [reflexivity|]).
  cbn [base base_prices total].
  split; [done|]. split.
  { intros p. rewrite list_elem_of_filter. tauto. }
  split; [done|]. split; [done|]. split.
  { apply Forall_forall. intros p Hp.
    by apply list_elem_of_filter in Hp as [? _]. }
  split; [apply sublist_filter|].
  unfold key_finding. cbn [base base_prices Pricing.name].
  destruct (filter _ _) as [|p ps] eqn:Hfilter; simpl.
  - split_and!; [done..|]. apply Forall_forall. intros p Hp Hlevel.
    assert (p ∈ filter (λ p, level p = Some "B")
                  (Spec.assemble (Tokens.price_tokens false
                                    (Py.split Py.NL output)))) as Hin
      by by apply list_elem_of_filter.
    rewrite Hfilter in Hin. by apply elem_of_nil in Hin.
  - rewrite length_map. split_and!; [done..|lia|done|done].
Qed.

Lemma length_take_string (n : nat) (s : string) :
  String.length (Py.take n s) = n `min` String.length s.
Proof.
  revert s. induction n as [|n IH]; intros [|c s]; simpl; [done..|].
  by rewrite IH.
Qed.

Lemma take_append_exact (n : nat) (a b : string) :
  String.length a = n → Py.take n (a +:+ b) = a.
Proof.
  intros <-. induction a as [|c a IH]; [by destruct b|].
  rewrite append_cons. simpl. by rewrite IH.
Qed.

Lemma take_take_string (n : nat) (s : string) :
  Py.take n (Py.take n s) = Py.take n s.
Proof.
  revert s. induction n as [|n IH]; intros [|c s]; simpl; [done..|].
  by rewrite IH.
Qed.

(** X17: a value shown for a corrupt record has its own length when that
    is at most 100 and the length 103 else; its first 100 characters are
    those of the value, and showing a shown value changes nothing. *)
Theorem shown_value_is_bounded (value : string) :
  String.length (shown_value value)
  = (if (100 <? String.length value)%nat then 103 else String.length value)
  ∧ String.length (shown_value value) ≤ 103
  ∧ Py.take 100 (shown_value value) = Py.take 100 value
  ∧ shown_value (shown_value value) = shown_value value.
Proof.
  unfold shown_value at 1 2 3.
  destruct (Nat.ltb_spec 100 (String.length value)) as [Hlong|Hshort].
  - assert (String.length (Py.take 100 value) = 100) as Hlen
      by (rewrite length_take_string; lia).
    assert (String.length (Py.take 100 value +:+ "...") = 103) as Hshown
      by (rewrite length_append, Hlen; done).
    split_and!; [done|lia| |].
    + by apply take_append_exact.
    + unfold shown_value.
      destruct (Nat.ltb_spec 100 (String.length value)); [|lia].
      rewrite Hshown. simpl Nat.ltb. cbv iota.
      by rewrite (take_append_exact 100) by done.
  - split_and!; [done|lia|done|].
    unfold shown_value.
    destruct (Nat.ltb_spec 100 (String.length value)) as [Hlong|_]; [lia|].
    by destruct (Nat.ltb_spec 100 (String.length value)); [lia|].
Qed.

End Report.

(** ** Records per segment, for the other extractors *)

Section MoreSegments.
Import Spec Tokens.

(** X18: the other three extractors emit records as [extract_articles]
    does: one record for every segment that holds a matched field, the
    segments being the lines before the first boundary and the lines
    after each boundary, and never an empty record. *)
Theorem other_extractors_emit_per_segment (output : string) :
  (length (Framery.extract_propertyclass_mappings output)
   = (if body_has_field (map mapping_token (Py.split Py.NL output))
      then 1 else 0)
     + boundaries_with_body (map mapping_token (Py.split Py.NL output))
   ∧ Forall (λ r, r ≠ ∅) (Framery.extract_propertyclass_mappings output))
  ∧ (length (Compare.extract_price_data output)
     = (if body_has_field
             (concat (map price_data_tokens (Py.split Py.NL output)))
        then 1 else 0)
       + boundaries_with_body
           (concat (map price_data_tokens (Py.split Py.NL output)))
     ∧ Forall (λ r, r ≠ ∅) (Compare.extract_price_data output))
  ∧ (length (Compare.extract_propertyvalue_data output)
     = (if body_has_field
             (concat (map propvalue_tokens (Py.split Py.NL output)))
        then 1 else 0)
       + boundaries_with_body
           (concat (map propvalue_tokens (Py.split Py.NL output)))
     ∧ Forall (λ r, r ≠ ∅) (Compare.extract_propertyvalue_data output)).
Proof.
  rewrite extract_propertyclass_mappings_assemble,
    extract_price_data_assemble, extract_propertyvalue_data_assemble.
  unfold assemble. rewrite !length_assemble_from, truthy_empty.
  split_and!; try done; apply assemble_from_nonempty.
Qed.

End MoreSegments.
